(** * Qwen TTS server: backend selection, audio normalisation and fallback

    A shallow embedding of [src/py/qwen_tts_server.py].  The module-level
    globals ([model], [MODEL_LOADED]), the file system and the log of calls
    made to the two speech engines form an explicit [World]; every function
    of the server is a computation in a state-and-exception monad over it.
    The third-party libraries (qwen-tts, torch, numpy conversions, scipy,
    pyttsx3, wave, base64, the process environment) are collected in a record
    [Env] of oracles, over which every theorem is universally quantified.

    Python [str] values are sequences of Unicode code points; Python [float]
    and numpy float arrays are IEEE-754 values of the matching format
    ([SpecFloat], precision 53, 24 or 11).  Calls to [logger] change neither
    control flow nor state and are left out. *)

From Stdlib Require Import ZArith NArith List Bool String Ascii Lia.
From Stdlib Require Import Floats.SpecFloat.
From stdpp Require Import base option list gmap.
Import ListNotations.
Local Open Scope Z_scope.

(** ** Python strings *)

Module PyStr.

(** A [str] is a sequence of code points. *)
Definition pystr := list N.

Fixpoint of_string (s : string) : pystr :=
  match s with
  | EmptyString => []
  | String c r => N_of_ascii c :: of_string r
  end.

(** [str.isspace] for one code point: the characters for which CPython's
    [Py_UNICODE_ISSPACE] holds. *)
Definition isspace (c : N) : bool :=
  ((9 <=? c) && (c <=? 13) || (28 <=? c) && (c <=? 32)
   || (c =? 133) || (c =? 160) || (c =? 5760)
   || (8192 <=? c) && (c <=? 8202)
   || (c =? 8232) || (c =? 8233) || (c =? 8239) || (c =? 8287)
   || (c =? 12288))%N.

Fixpoint lstrip (s : pystr) : pystr :=
  match s with
  | [] => []
  | c :: r => if isspace c then lstrip r else s
  end.

Definition rstrip (s : pystr) : pystr := rev (lstrip (rev s)).

(** [s.strip()] *)
Definition strip (s : pystr) : pystr := rstrip (lstrip s).

(** Truth value of a string: [bool(s)]. *)
Definition truthy (s : pystr) : bool :=
  match s with [] => false | _ => true end.

Definition eqb (a b : pystr) : bool := bool_decide (a = b).

(** [s.replace(old, new)] for a one-character [old]. *)
Definition replace1 (old : N) (new : pystr) (s : pystr) : pystr :=
  flat_map (fun c => if (c =? old)%N then new else [c]) s.

End PyStr.

Abbreviation pystr := PyStr.pystr.
Abbreviation u := PyStr.of_string.

(** ** Python floats *)

Module PyFloat.

(** Binary64, the format of Python's [float]. *)
Definition prec64 : Z := 53.
Definition emax64 : Z := 1024.

(** An integer as the exact dyadic [z * 2^0]. *)
Definition exact (z : Z) : spec_float :=
  match z with
  | Z0 => S754_zero false
  | Zpos p => S754_finite false p 0
  | Zneg p => S754_finite true p 0
  end.

(** [float(z)]: the integer rounded to the nearest binary64. *)
Definition of_int (z : Z) : spec_float :=
  binary_normalize prec64 emax64 z 0 false.

Definition mul : spec_float -> spec_float -> spec_float :=
  SFmul prec64 emax64.
Definition div : spec_float -> spec_float -> spec_float :=
  SFdiv prec64 emax64.

(** Truncation toward zero of a finite value [m * 2^e]. *)
Definition trunc_mag (m : positive) (e : Z) : Z :=
  match e with
  | Z0 => Zpos m
  | Zpos _ => Z.shiftl (Zpos m) e
  | Zneg k => Z.shiftr (Zpos m) (Zpos k)
  end.

Definition is_zero (f : spec_float) : bool :=
  match f with S754_zero _ => true | _ => false end.

End PyFloat.

(** ** Exceptions and results *)

Inductive exn : Type :=
| HTTPException (status_code : Z) (detail : pystr)
| PyError (cls : pystr) (msg : pystr).

(** Python's built-in classes that derive from [BaseException] without
    deriving from [Exception].  [HTTPException] and every other class an
    exception is named after here derive from [Exception]. *)
Definition outside_Exception : list pystr :=
  [u "BaseException"; u "BaseExceptionGroup"; u "GeneratorExit";
   u "KeyboardInterrupt"; u "SystemExit"].

(** [isinstance(e, Exception)]: what an [except Exception] clause
    catches. *)
Definition is_Exception (e : exn) : bool :=
  match e with
  | HTTPException _ _ => true
  | PyError cls _ => negb (existsb (PyStr.eqb cls) outside_Exception)
  end.

Inductive result (A : Type) : Type :=
| Ok (a : A)
| Raise (e : exn).
Arguments Ok {A} a.
Arguments Raise {A} e.

Definition is_ok {A} (r : result A) : bool :=
  match r with Ok _ => true | Raise _ => false end.

Module PyNum.
Import PyFloat.

(** [int(f)] on a float: truncation toward zero; infinities and NaN
    raise. *)
Definition py_int (f : spec_float) : result Z :=
  match f with
  | S754_zero _ => Ok 0
  | S754_finite s m e => Ok (cond_Zopp s (trunc_mag m e))
  | S754_infinity _ =>
      Raise (PyError (u "OverflowError")
               (u "cannot convert float infinity to integer"))
  | S754_nan =>
      Raise (PyError (u "ValueError")
               (u "cannot convert float NaN to integer"))
  end.

(** [a / b] on two ints: the correctly rounded quotient. *)
Definition int_truediv (a b : Z) : result spec_float :=
  if b =? 0 then
    Raise (PyError (u "ZeroDivisionError") (u "division by zero"))
  else
    match div (exact a) (exact b) with
    | S754_infinity _ =>
        Raise (PyError (u "OverflowError")
                 (u "integer division result too large for a float"))
    | q => Ok q
    end.

(** [float(z)] *)
Definition py_float (z : Z) : result spec_float :=
  match of_int z with
  | S754_infinity _ =>
      Raise (PyError (u "OverflowError")
               (u "int too large to convert to float"))
  | f => Ok f
  end.

(** [x / y] on two floats. *)
Definition float_truediv (x y : spec_float) : result spec_float :=
  if is_zero y then
    Raise (PyError (u "ZeroDivisionError") (u "float division by zero"))
  else Ok (div x y).

End PyNum.

(** ** numpy arrays *)

Module Np.

Inductive float_format := float16 | float32 | float64.

Inductive int_type :=
| int8 | int16 | int32 | int64 | uint8 | uint16 | uint32 | uint64 | bool_.

Definition fprec (f : float_format) : Z :=
  match f with float16 => 11 | float32 => 24 | float64 => 53 end.
Definition femax (f : float_format) : Z :=
  match f with float16 => 16 | float32 => 128 | float64 => 1024 end.

Inductive dtype := DFloat (f : float_format) | DInt (t : int_type).

(** An array: element type, shape and the elements in row-major order. *)
Inductive ndarray :=
| FloatArray (f : float_format) (shape : list nat) (data : list spec_float)
| IntArray (t : int_type) (shape : list nat) (data : list Z).

Definition dtype_of (a : ndarray) : dtype :=
  match a with
  | FloatArray f _ _ => DFloat f
  | IntArray t _ _ => DInt t
  end.

Definition shape_of (a : ndarray) : list nat :=
  match a with
  | FloatArray _ s _ => s
  | IntArray _ s _ => s
  end.

Definition ndim (a : ndarray) : nat := length (shape_of a).

(** [a.squeeze()]: axes of length one are dropped. *)
Definition squeeze (a : ndarray) : ndarray :=
  let keep := filter (fun n => n <> 1%nat) in
  match a with
  | FloatArray f s d => FloatArray f (keep s) d
  | IntArray t s d => IntArray t (keep s) d
  end.

(** [len(a)]: the length of the first axis; a 0-d array has none. *)
Definition len (a : ndarray) : result Z :=
  match shape_of a with
  | [] => Raise (PyError (u "TypeError") (u "len() of unsized object"))
  | n :: _ => Ok (Z.of_nat n)
  end.

Section Elementwise.
Variable f : float_format.
Let prec := fprec f.
Let emax := femax f.

Definition const (z : Z) : spec_float := binary_normalize prec emax z 0 false.

(** One element of [np.clip(a, -1.0, 1.0)]. *)
Definition clip1 (x : spec_float) : spec_float :=
  match x with
  | S754_nan => S754_nan
  | _ =>
      if SFltb x (const (-1)) then const (-1)
      else if SFltb (const 1) x then const 1
      else x
  end.

(** One element of [a * 32767]: the scalar takes the array's type. *)
Definition scale1 (x : spec_float) : spec_float :=
  SFmul prec emax x (const 32767).

(** One element of [a.astype(np.int16)]: the C conversion truncates
    toward zero; [invalid] is what the platform stores for NaN and for
    values outside the 16-bit range. *)
Definition to_int16 (invalid : spec_float -> Z) (x : spec_float) : Z :=
  match x with
  | S754_zero _ => 0
  | S754_finite s m e =>
      let z := cond_Zopp s (PyFloat.trunc_mag m e) in
      if (-32768 <=? z) && (z <=? 32767) then z else invalid x
  | _ => invalid x
  end.
End Elementwise.

End Np.


(** ** The world of the server process *)

Definition bytes := list Byte.byte.

(** What [generate] and [generate_voice_design] hand back as [wavs]: the
    object is a torch tensor or not, and each of the two conversions of
    line 239 yields an array or raises. *)
Record Wavs := {
  is_tensor : bool;
  cpu_numpy : result Np.ndarray;
  np_array : result Np.ndarray;
}.

(** A loaded [Qwen3TTSModel].  An absent method is [None] ([hasattr] is
    false).  The first argument of a method is the index of the call in the
    process history, so a model may answer the same request differently at
    different times.  Arguments: text, language, speaker and, for voice
    design, the instruction. *)
Record Qwen3TTSModel := {
  generate_voice_design :
    option (nat -> pystr -> pystr -> pystr -> pystr -> result (Wavs * Z));
  generate :
    option (nat -> pystr -> pystr -> pystr -> result (Wavs * Z));
}.

(** Calls that reach a speech engine, in the order they are made. *)
Inductive Event :=
| CallGenerateVoiceDesign (text language speaker instruct : pystr)
| CallGenerate (text language speaker : pystr)
| EngineInit
| EngineSetVoice (id : pystr)
| EngineSetRate (rate : Z)
| EngineSaveToFile (text path : pystr)
| EngineRunAndWait.

(** Outcome of a library call that writes a file: what it leaves at the
    path, if anything, and the exception it ends with, if any. *)
Record io_outcome := {
  written : option bytes;
  raised : option exn;
}.

(** The libraries and the process environment the server runs against.
    - [HAS_PYTTSX3]: whether [import pyttsx3] succeeded (lines 41-45);
    - [getenv], [expanduser]: [os.getenv] and [os.path.expanduser];
    - [from_pretrained]: [Qwen3TTSModel.from_pretrained] on a path or id;
    - [pyttsx3_init]: [pyttsx3.init()] followed by
      [engine.getProperty('voices')], as the list of the voices' ids;
    - [run_and_wait]: what [engine.runAndWait()] renders for the queued
      text with the selected voice, if any, and the rate;
    - [wavfile_write]: [scipy.io.wavfile.write] of an array at a rate;
    - [wave_open]: [wave.open] on a file's content, as
      [(getnframes(), getframerate())];
    - [b64encode]: [base64.b64encode(...).decode('utf-8')];
    - [exn_str]: [str(e)];
    - [cast_invalid]: what the platform's float-to-int16 conversion stores
      for NaN and for values out of range;
    - [int_of_str]: [int(s)] on a string;
    - [uuid4]: [str(uuid.uuid4())];
    - [str_lower]: [str.lower].
    A first argument of type [nat] is the index of the call in the process
    history. *)
Record Env := {
  HAS_PYTTSX3 : bool;
  getenv : pystr -> option pystr;
  expanduser : pystr -> pystr;
  from_pretrained : nat -> pystr -> result Qwen3TTSModel;
  pyttsx3_init : nat -> result (list pystr);
  run_and_wait : nat -> pystr -> option pystr -> Z -> io_outcome;
  wavfile_write : nat -> Z -> Np.ndarray -> io_outcome;
  wave_open : bytes -> result (Z * Z);
  b64encode : bytes -> pystr;
  exn_str : exn -> pystr;
  cast_invalid : spec_float -> Z;
  int_of_str : pystr -> result Z;
  uuid4 : nat -> pystr;
  str_lower : pystr -> pystr;
}.

Record World := {
  model : option Qwen3TTSModel;
  MODEL_LOADED : bool;
  fs : gmap pystr bytes;
  trace : list Event;
  clock : nat;
}.

Definition set_model (m : option Qwen3TTSModel) (w : World) : World :=
  {| model := m; MODEL_LOADED := MODEL_LOADED w; fs := fs w;
     trace := trace w; clock := clock w |}.
Definition set_MODEL_LOADED (b : bool) (w : World) : World :=
  {| model := model w; MODEL_LOADED := b; fs := fs w;
     trace := trace w; clock := clock w |}.
Definition set_fs (f : gmap pystr bytes) (w : World) : World :=
  {| model := model w; MODEL_LOADED := MODEL_LOADED w; fs := f;
     trace := trace w; clock := clock w |}.
Definition add_event (ev : Event) (w : World) : World :=
  {| model := model w; MODEL_LOADED := MODEL_LOADED w; fs := fs w;
     trace := trace w ++ [ev]; clock := clock w |}.
Definition tick (w : World) : World :=
  {| model := model w; MODEL_LOADED := MODEL_LOADED w; fs := fs w;
     trace := trace w; clock := S (clock w) |}.

(** The module right after import: lines 55 and 57. *)
Definition initial_world (files : gmap pystr bytes) : World :=
  {| model := None; MODEL_LOADED := false; fs := files;
     trace := []; clock := O |}.

(** ** Computations: state and exceptions *)

Definition M (A : Type) : Type := World -> result A * World.

Definition ret {A} (a : A) : M A := fun w => (Ok a, w).

Definition raise {A} (e : exn) : M A := fun w => (Raise e, w).

Definition bind {A B} (m : M A) (k : A -> M B) : M B :=
  fun w =>
    match m w with
    | (Ok a, w') => k a w'
    | (Raise e, w') => (Raise e, w')
    end.

(** [try: body except Exception as e: handler(e)].  An exception outside
    [Exception] ([KeyboardInterrupt], [SystemExit], ...) is not caught: it
    leaves the statement as it came. *)
Definition try_except {A} (body : M A) (handler : exn -> M A) : M A :=
  fun w =>
    match body w with
    | (Ok a, w') => (Ok a, w')
    | (Raise e, w') =>
        if is_Exception e then handler e w' else (Raise e, w')
    end.

Definition lift {A} (r : result A) : M A := fun w => (r, w).

Definition gets {A} (f : World -> A) : M A := fun w => (Ok (f w), w).

Definition modify (f : World -> World) : M unit := fun w => (Ok tt, f w).

(** A library call: it reads its position in the history and advances it. *)
Definition ext {A} (f : nat -> A) : M A :=
  fun w => (Ok (f (clock w)), tick w).

Definition emit (ev : Event) : M unit := modify (add_event ev).

Definition when (b : bool) (m : M unit) : M unit :=
  if b then m else ret tt.

#[global] Instance M_ret : MRet M := @ret.
#[global] Instance M_bind : MBind M := fun A B k m => bind m k.

(** ** File operations *)

Definition FileNotFoundError (path : pystr) : exn :=
  PyError (u "FileNotFoundError") path.

(** [os.path.exists(path)] *)
Definition path_exists (path : pystr) : M bool :=
  gets (fun w => bool_decide (is_Some (fs w !! path))).

(** [open(path, 'rb').read()] *)
Definition read_file (path : pystr) : M bytes :=
  fun w =>
    match fs w !! path with
    | Some b => (Ok b, w)
    | None => (Raise (FileNotFoundError path), w)
    end.

(** [os.remove(path)] *)
Definition os_remove (path : pystr) : M unit :=
  fun w =>
    match fs w !! path with
    | Some _ => (Ok tt, set_fs (delete path (fs w)) w)
    | None => (Raise (FileNotFoundError path), w)
    end.

(** A library call writing to [path]. *)
Definition write_via (path : pystr) (call : nat -> io_outcome) : M unit :=
  o ← ext call;
  when (bool_decide (is_Some (written o)))
    (modify (fun w => set_fs (<[path := default [] (written o)]> (fs w)) w));;
  match raised o with
  | Some e => raise e
  | None => ret tt
  end.

(** ** Module constants and request models *)

Definition MODEL_NAME : pystr := u "Qwen3-TTS-VoiceDesign".

(** Built-in voice names mapped to pyttsx3 voice indices. *)
Definition VOICE_MAP : gmap pystr nat :=
  list_to_map
    [(u "default", 0%nat); (u "marrvin", 0%nat);
     (u "marlin", 1%nat); (u "daniel", 2%nat)].

Record TTSRequest := {
  text : pystr;
  voice : pystr;
  prosody_instruction : pystr;
  speed : spec_float;
  output_format : pystr;
}.

(** The field defaults of [TTSRequest]; [speed] defaults to [1.0]. *)
Definition TTSRequest_defaults (t : pystr) : TTSRequest :=
  {| text := t;
     voice := u "default";
     prosody_instruction := u "speak normally";
     speed := PyFloat.of_int 1;
     output_format := u "wav" |}.

Record TTSResponse := {
  audio_data : pystr;
  duration_ms : Z;
  sample_rate : Z;
  format : pystr;
}.

Record HealthResponse := {
  status : pystr;
  model_loaded : bool;
  model_name : option pystr;
  port : Z;
}.

Record VoiceCloneRequest := {
  reference_audio_path : pystr;
  voice_name : pystr;
  description : pystr;
}.

Record VoiceCloneResponse := {
  clone_status : pystr;
  voice_id : option pystr;
  message : pystr;
}.

Record RootResponse := {
  service : pystr;
  root_status : pystr;
  root_model_loaded : bool;
  version : pystr;
}.

(** ** The server *)

Section Server.

Variable E : Env.

(** [os.path.join] of a directory without trailing slash and a relative
    name. *)
Definition os_path_join (a b : pystr) : pystr := a ++ u "/" ++ b.

(** Lines 107-140. *)
Definition load_qwen_model : M unit :=
  let model_path := getenv E (u "QWEN_MODEL_PATH") in
  let cache_dir := expanduser E (u "~/.cache/huggingface/hub") in
  let model_id := u "Qwen/Qwen3-TTS-12Hz-1.7B-VoiceDesign" in
  let cached_model_path :=
    os_path_join cache_dir (u "models--" ++ PyStr.replace1 47 (u "--") model_id) in
  try_except
    (custom ← (match model_path with
               | Some p => if PyStr.truthy p then path_exists p else ret false
               | None => ret false
               end : M bool);
     m ← (if (custom : bool) then
            r ← ext (fun n => from_pretrained E n (default [] model_path));
            lift r
          else
            cached ← path_exists cached_model_path;
            if (cached : bool) then
              r ← ext (fun n => from_pretrained E n model_id); lift r
            else
              r ← ext (fun n => from_pretrained E n model_id); lift r
          : M Qwen3TTSModel);
     modify (set_model (Some m));;
     modify (set_MODEL_LOADED true))
    (fun _ => modify (set_MODEL_LOADED (HAS_PYTTSX3 E))).

Definition system_temp_file : pystr := u "/tmp/qwen_tts_temp.wav".
Definition qwen_temp_file : pystr := u "/tmp/qwen_tts_output.wav".

Definition base_rate : Z := 200.

(** Lines 185-186: [duration = frames / float(rate)] and
    [duration_ms = int(duration * 1000)]. *)
Definition system_duration_ms (frames rate : Z) : result Z :=
  match PyNum.py_float rate with
  | Raise e => Raise e
  | Ok frate =>
      match PyNum.py_float frames with
      | Raise e => Raise e
      | Ok fframes =>
          match PyNum.float_truediv fframes frate with
          | Raise e => Raise e
          | Ok duration =>
              PyNum.py_int (PyFloat.mul duration (PyFloat.of_int 1000))
          end
      end
  end.

(** Lines 176-197: read the rendered file back, with its clean-up. *)
Definition read_system_output (temp_file : pystr) : M (bytes * Z * Z) :=
  try_except
    (audio_data ← read_file temp_file;
     content ← read_file temp_file;
     '(frames, rate) ← lift (wave_open E content);
     duration_ms ← lift (system_duration_ms frames rate);
     let sample_rate := rate in
     os_remove temp_file;;
     ret (audio_data, sample_rate, duration_ms))
    (fun e =>
       still ← path_exists temp_file;
       when still (os_remove temp_file);;
       raise e).

(** Lines 143-197.  Returns [(audio_data, sample_rate, duration_ms)]. *)
Definition synthesize_with_system_tts
    (text voice : pystr) (speed : spec_float) : M (bytes * Z * Z) :=
  if negb (HAS_PYTTSX3 E) then
    raise (HTTPException 500
             (u "TTS not available. Install pyttsx3: pip install pyttsx3"))
  else
    emit EngineInit;;
    r ← ext (pyttsx3_init E);
    voices ← lift r;
    let voice_id := default 0%nat (VOICE_MAP !! voice) in
    let chosen :=
      if negb (bool_decide (voices = [])) && (voice_id <? length voices)%nat
      then voices !! voice_id else None in
    from_option (fun id => emit (EngineSetVoice id)) (ret tt) chosen;;
    rate ← lift (PyNum.py_int (PyFloat.mul (PyFloat.of_int base_rate) speed));
    emit (EngineSetRate rate);;
    let temp_file := system_temp_file in
    emit (EngineSaveToFile text temp_file);;
    emit EngineRunAndWait;;
    write_via temp_file (fun n => run_and_wait E n text chosen rate);;
    read_system_output temp_file.

(** Line 219. *)
Definition voice_instruct (prosody : pystr) : pystr :=
  if PyStr.truthy prosody && negb (PyStr.eqb prosody (u "speak normally"))
  then prosody
  else u "Speak in a natural, clear voice".

(** Lines 216-236: dispatch on the methods the model has. *)
Definition qwen_generate
    (m : Qwen3TTSModel) (text voice prosody : pystr) : M (Wavs * Z) :=
  match generate_voice_design m with
  | Some gvd =>
      let instruct := voice_instruct prosody in
      emit (CallGenerateVoiceDesign text (u "English") voice instruct);;
      r ← ext (fun n => gvd n text (u "English") voice instruct);
      lift r
  | None =>
      match generate m with
      | Some g =>
          emit (CallGenerate text (u "English") voice);;
          r ← ext (fun n => g n text (u "English") voice);
          lift r
      | None =>
          raise (PyError (u "AttributeError")
                   (u "Model has no known generation method"))
      end
  end.

(** Lines 245-250: convert float audio to int16. *)
Definition convert_to_int16 (a : Np.ndarray) : Np.ndarray :=
  match a with
  | Np.FloatArray f shape data =>
      match f with
      | Np.float32 | Np.float16 =>
          Np.IntArray Np.int16 shape
            (map (fun x => Np.to_int16 (cast_invalid E)
                             (Np.scale1 f (Np.clip1 f x))) data)
      | Np.float64 => a
      end
  | Np.IntArray _ _ _ => a
  end.

(** Line 252. *)
Definition qwen_duration_ms (n sample_rate : Z) : result Z :=
  match PyNum.int_truediv n sample_rate with
  | Ok q => PyNum.py_int (PyFloat.mul q (PyFloat.of_int 1000))
  | Raise e => Raise e
  end.

(** Lines 212-250: generation and conversion to a one-dimensional int16
    array; returns the array and the sample rate. *)
Definition qwen_audio_array
    (m : Qwen3TTSModel) (text voice prosody : pystr) : M (Np.ndarray * Z) :=
  '(wavs, sample_rate) ← qwen_generate m text voice prosody;
  audio_array ← lift (if is_tensor wavs then cpu_numpy wavs else np_array wavs);
  let audio_array :=
    if (1 <? Np.ndim audio_array)%nat then Np.squeeze audio_array
    else audio_array in
  let audio_array := convert_to_int16 audio_array in
  ret (audio_array, sample_rate).

(** Lines 212-266: the body of the [try]. *)
Definition qwen_body
    (m : Qwen3TTSModel) (text voice prosody : pystr) : M (bytes * Z * Z) :=
  '(audio_array, sample_rate) ← qwen_audio_array m text voice prosody;
  n ← lift (Np.len audio_array);
  duration_ms ← lift (qwen_duration_ms n sample_rate);
  let temp_file := qwen_temp_file in
  write_via temp_file (fun k => wavfile_write E k sample_rate audio_array);;
  audio_data ← read_file temp_file;
  os_remove temp_file;;
  ret (audio_data, sample_rate, duration_ms).

(** Lines 200-271. *)
Definition synthesize_with_qwen
    (text voice prosody : pystr) (speed : spec_float) : M (bytes * Z * Z) :=
  mo ← gets model;
  match mo with
  | None => synthesize_with_system_tts text voice speed
  | Some m =>
      try_except (qwen_body m text voice prosody)
        (fun _ => synthesize_with_system_tts text voice speed)
  end.

(** Lines 274-282: the start-up half of [lifespan]. *)
Definition lifespan_startup : M unit := load_qwen_model.

(** Lines 305-314. *)
Definition health_check : M HealthResponse :=
  port ← lift (int_of_str E
                 (default (u "7860") (getenv E (u "QWEN_SERVER_PORT"))));
  loaded ← gets MODEL_LOADED;
  ret {| status := u "healthy";
         model_loaded := loaded;
         model_name := if (loaded : bool) then Some MODEL_NAME else None;
         port := port |}.

(** Line 331: the request is refused when this holds. *)
Definition text_missing (t : pystr) : bool :=
  negb (PyStr.truthy t) || negb (PyStr.truthy (PyStr.strip t)).

(** Lines 338-351: the choice of the synthesis method. *)
Definition choose_synthesis (request : TTSRequest) : M (bytes * Z * Z) :=
  loaded ← gets MODEL_LOADED;
  if (loaded : bool) then
    synthesize_with_qwen (text request) (voice request)
      (prosody_instruction request) (speed request)
  else
    synthesize_with_system_tts (text request) (voice request) (speed request).

(** Lines 317-368. *)
Definition synthesize (request : TTSRequest) : M TTSResponse :=
  if text_missing (text request) then
    raise (HTTPException 400 (u "Text is required"))
  else
    try_except
      ('(audio, sample_rate, duration_ms) ← choose_synthesis request;
       let audio_base64 := b64encode E audio in
       ret {| audio_data := audio_base64;
              duration_ms := duration_ms;
              sample_rate := sample_rate;
              format := output_format request |})
      (fun e =>
         raise (HTTPException 500 (u "Synthesis failed: " ++ exn_str E e))).

(** Lines 371-410. *)
Definition clone_voice (request : VoiceCloneRequest) : M VoiceCloneResponse :=
  found ← path_exists (reference_audio_path request);
  if negb found then
    raise (HTTPException 404
             (u "Reference audio not found: " ++ reference_audio_path request))
  else
    uuid ← ext (uuid4 E);
    let voice_id :=
      u "custom_"
      ++ PyStr.replace1 32 (u "_") (str_lower E (voice_name request))
      ++ u "_" ++ take 8 uuid in
    ret {| clone_status := u "pending";
           voice_id := Some voice_id;
           message :=
             u "Voice cloning not yet implemented. Qwen3-TTS VoiceDesign model required. Stub voice_id: "
             ++ voice_id |}.

(** Lines 413-421. *)
Definition root : M RootResponse :=
  loaded ← gets MODEL_LOADED;
  ret {| service := u "Qwen TTS Server";
         root_status := u "running";
         root_model_loaded := loaded;
         version := u "1.0.0" |}.

(** *** Requests and the serving loop *)

Inductive Request :=
| GetHealth
| PostSynthesize (r : TTSRequest)
| PostCloneVoice (r : VoiceCloneRequest)
| GetRoot.

Inductive Response :=
| HealthBody (r : HealthResponse)
| SynthesizeBody (r : TTSResponse)
| CloneVoiceBody (r : VoiceCloneResponse)
| RootBody (r : RootResponse).

Definition fmap_result {A B} (f : A -> B) (m : M A) : M B :=
  fun w =>
    match m w with
    | (Ok a, w') => (Ok (f a), w')
    | (Raise e, w') => (Raise e, w')
    end.

(** One request through its route. *)
Definition handle (rq : Request) : M Response :=
  match rq with
  | GetHealth => fmap_result HealthBody health_check
  | PostSynthesize r => fmap_result SynthesizeBody (synthesize r)
  | PostCloneVoice r => fmap_result CloneVoiceBody (clone_voice r)
  | GetRoot => fmap_result RootBody root
  end.

(** The world after a sequence of requests, whatever each one answered or
    raised. *)
Fixpoint serve (rqs : list Request) (w : World) : World :=
  match rqs with
  | [] => w
  | rq :: rest => serve rest (snd (handle rq w))
  end.

End Server.

(** ** Reading the specification's wording *)

(** The nearest integer to [num / den] for [den > 0], halves to the even
    neighbour: what [round] gives on the exact quotient. *)
Definition round_half_even (num den : Z) : Z :=
  let q := num / den in
  let r := num mod den in
  match 2 * r ?= den with
  | Lt => q
  | Gt => q + 1
  | Eq => if Z.even q then q else q + 1
  end.

(** The integer part of the dyadic [m * 2^e]. *)
Definition floor_dyadic (m : positive) (e : Z) : Z :=
  if 0 <=? e then Zpos m * 2 ^ e else Zpos m / 2 ^ (- e).

(** [d] is the value of the float [f] with its fraction dropped. *)
Definition truncation_of (f : spec_float) (d : Z) : Prop :=
  match f with
  | S754_zero _ => d = 0
  | S754_finite s m e => d = cond_Zopp s (floor_dyadic m e)
  | _ => False
  end.

(** The sign bit of [f] is [s]; NaN carries none. *)
Definition sign_is (s : bool) (f : spec_float) : Prop :=
  match f with
  | S754_zero t | S754_infinity t | S754_finite t _ _ => t = s
  | S754_nan => True
  end.

(** Section 4.3, step 3, in the specification's words:
    [durationMs = round(sampleCount / sampleRateHz * 1000)]. *)
Definition spec_durationMs (sampleCount sampleRateHz : Z) : Z :=
  round_half_even (sampleCount * 1000) sampleRateHz.

(** Section 4.2 in the specification's words: the instruction is the
    prosody verbatim unless it equals the sentinel. *)
Definition spec_instruction (prosody : pystr) : pystr :=
  if PyStr.eqb prosody (u "speak normally")
  then u "Speak in a natural, clear voice"
  else prosody.

(** What line 219 does: the default also replaces an empty prosody. *)
Definition instruction_for (prosody : pystr) : pystr :=
  if bool_decide (prosody = [] \/ prosody = u "speak normally")
  then u "Speak in a natural, clear voice"
  else prosody.

(** The answer of [/synthesize] built from what a backend returned. *)
Definition response_of
    (E : Env) (request : TTSRequest) (r : result (bytes * Z * Z) * World)
    : result TTSResponse * World :=
  match r with
  | (Ok (audio, sample_rate, duration_ms), w) =>
      (Ok {| audio_data := b64encode E audio;
             duration_ms := duration_ms;
             sample_rate := sample_rate;
             format := output_format request |}, w)
  | (Raise e, w) =>
      if is_Exception e then
        (Raise (HTTPException 500 (u "Synthesis failed: " ++ exn_str E e)), w)
      else (Raise e, w)
  end.

Definition with_output_format (fmt : pystr) (r : TTSRequest) : TTSRequest :=
  {| text := text r; voice := voice r;
     prosody_instruction := prosody_instruction r;
     speed := speed r; output_format := fmt |}.

Definition is_engine_event (ev : Event) : bool :=
  match ev with
  | CallGenerateVoiceDesign _ _ _ _ | CallGenerate _ _ _ => false
  | _ => true
  end.

(** ** Relations between the world before and after a computation *)

(** Every run of [m] takes a world to one related to it by [R]. *)
Definition respects (R : World -> World -> Prop) {A} (m : M A) : Prop :=
  forall w, R w (snd (m w)).

(** The two module globals are untouched. *)
Definition same_globals (w w' : World) : Prop :=
  model w' = model w /\ MODEL_LOADED w' = MODEL_LOADED w.

(** No engine was called. *)
Definition same_trace (w w' : World) : Prop := trace w' = trace w.

(** The file at [p], or its absence, is as before. *)
Definition keeps_file (p : pystr) (w w' : World) : Prop :=
  fs w' !! p = fs w !! p.

(** Only the system voice engine was called. *)
Definition engine_calls_only (w w' : World) : Prop :=
  exists evs, trace w' = trace w ++ evs
              /\ forallb is_engine_event evs = true.

(** What [/health] answers in a world: it reads [MODEL_LOADED] and the
    port variable and nothing else. *)
Definition health_answer (E : Env) (loaded : bool) : result HealthResponse :=
  match int_of_str E (default (u "7860") (getenv E (u "QWEN_SERVER_PORT"))) with
  | Ok p =>
      Ok {| status := u "healthy";
            model_loaded := loaded;
            model_name := if loaded then Some MODEL_NAME else None;
            port := p |}
  | Raise e => Raise e
  end.

(** ** Concrete environments *)

Module Scenario.

Definition some_exn : exn := PyError (u "RuntimeError") (u "boom").

(** A voice-design model answering with [wavs] at [rate] Hz. *)
Definition design_model (wavs : result Np.ndarray) (rate : Z) : Qwen3TTSModel :=
  {| generate_voice_design :=
       Some (fun _ _ _ _ _ =>
               Ok ({| is_tensor := false;
                      cpu_numpy := Raise some_exn;
                      np_array := wavs |}, rate));
     generate := None |}.

(** An environment with a working system voice engine whose artifact holds
    [frames] frames at [rate] Hz. *)
Definition env
    (has_pyttsx3 : bool) (load : result Qwen3TTSModel)
    (write : io_outcome) (frames rate : Z) : Env :=
  {| HAS_PYTTSX3 := has_pyttsx3;
     getenv := fun _ => None;
     expanduser := fun p => u "/home/user" ++ drop 1 p;
     from_pretrained := fun _ _ => load;
     pyttsx3_init := fun _ => Ok [u "voice.zero"; u "voice.one"];
     run_and_wait := fun _ _ _ _ =>
       {| written := Some [Byte.x52; Byte.x49]; raised := None |};
     wavfile_write := fun _ _ _ => write;
     wave_open := fun _ => Ok (frames, rate);
     b64encode := fun b => map (fun c => N.of_nat (Byte.to_nat c)) b;
     exn_str := fun e =>
       match e with HTTPException _ d => d | PyError _ m => m end;
     cast_invalid := fun _ => (-32768);
     int_of_str := fun _ => Ok 7860;
     uuid4 := fun _ => u "00000000-0000-4000-8000-000000000000";
     str_lower := fun s => s |}.

Definition wrote (b : bytes) : io_outcome :=
  {| written := Some b; raised := None |}.

(** [wavfile.write] opens the file for writing and then refuses the data. *)
Definition created_then_failed : io_outcome :=
  {| written := Some [];
     raised := Some (PyError (u "ValueError") (u "Unsupported data type")) |}.

(** Two int16 samples at 3 Hz. *)
Definition two_samples : result Np.ndarray :=
  Ok (Np.IntArray Np.int16 [2%nat] [0; 0]).

(** The samples 0.5 and 2.0 in double precision, as [np.array] makes them
    from a list of Python floats. *)
Definition float64_samples : result Np.ndarray :=
  Ok (Np.FloatArray Np.float64 [2%nat]
        [S754_finite false 4503599627370496 (-53);
         S754_finite false 4503599627370496 (-51)]).

(** A loaded model answering with float64 samples at 24 kHz. *)
Definition float64_output : Env :=
  env true (Ok (design_model float64_samples 24000)) (wrote []) 22050 22050.

(** Model loading fails on a host that has pyttsx3. *)
Definition load_fails : Env :=
  env true (Raise some_exn) (wrote []) 22050 22050.

(** A loaded model, all libraries working. *)
Definition healthy : Env :=
  env true (Ok (design_model two_samples 3)) (wrote [Byte.x52]) 22050 22050.

(** A loaded model whose output file cannot be completed. *)
Definition write_fails : Env :=
  env true (Ok (design_model two_samples 3)) created_then_failed 22050 22050.

(** A loaded model whose generation raises. *)
Definition generation_fails : Env :=
  env true (Ok (design_model (Raise some_exn) 3)) (wrote []) 22050 22050.

Definition started (E : Env) : World :=
  snd (lifespan_startup E (initial_world ∅)).

Definition hello : TTSRequest := TTSRequest_defaults (u "Hello world").


(** The healthy server answering [hello]. *)
Definition healthy_world : World :=
  Eval vm_compute in snd (synthesize healthy hello (started healthy)).
Definition healthy_answer : TTSResponse :=
  {| audio_data := [82%N]; duration_ms := 666; sample_rate := 3;
     format := u "wav" |}.

(** [0.5078125 = 65 / 128], a speed inside [0.5, 2.0]. *)
Definition speed_65_128 : spec_float :=
  binary_normalize 53 1024 65 (-7) false.

End Scenario.


(** ** Further readings of the code *)

(** The model id of line 114. *)
Definition MODEL_ID : pystr := u "Qwen/Qwen3-TTS-12Hz-1.7B-VoiceDesign".

(** What [load_qwen_model] hands to [from_pretrained]: the path in
    [QWEN_MODEL_PATH] when that is set, not empty and exists, the model id
    otherwise. *)
Definition load_target (E : Env) (w : World) : pystr :=
  match getenv E (u "QWEN_MODEL_PATH") with
  | Some p =>
      if PyStr.truthy p && bool_decide (is_Some (fs w !! p)) then p
      else MODEL_ID
  | None => MODEL_ID
  end.

(** The detail of the error of lines 148-152. *)
Definition no_tts_error : exn :=
  HTTPException 500
    (u "TTS not available. Install pyttsx3: pip install pyttsx3").

(** The name part of a cloned voice's id, line 401. *)
Definition clone_name_part (E : Env) (name : pystr) : pystr :=
  PyStr.replace1 32 (u "_") (str_lower E name).

Definition is_synthesize (rq : Request) : bool :=
  match rq with PostSynthesize _ => true | _ => false end.

(** The model has one of the two generation methods. *)
Definition can_generate (m : Qwen3TTSModel) : bool :=
  match generate_voice_design m, generate m with
  | None, None => false
  | _, _ => true
  end.

(** The index of line 161 and the voice of lines 162-163: the engine's
    voice at that index when it has one. *)
Definition voice_index (voice : pystr) : nat :=
  default 0%nat (VOICE_MAP !! voice).

Definition chosen_voice (voices : list pystr) (voice : pystr) : option pystr :=
  if negb (bool_decide (voices = []))
     && (voice_index voice <? length voices)%nat
  then voices !! voice_index voice else None.

(** The engine calls of lines 157-173, in order. *)
Definition setup_events
    (text : pystr) (chosen : option pystr) (rate : Z) : list Event :=
  [EngineInit]
  ++ match chosen with Some v => [EngineSetVoice v] | None => [] end
  ++ [EngineSetRate rate; EngineSaveToFile text system_temp_file;
      EngineRunAndWait].

(** The world when [runAndWait] starts rendering. *)
Definition before_rendering (evs : list Event) (w : World) : World :=
  {| model := model w; MODEL_LOADED := MODEL_LOADED w; fs := fs w;
     trace := trace w ++ evs; clock := S (clock w) |}.

(** Lines 252-266: measuring, writing, reading back and removing. *)
Definition qwen_write_out
    (E : Env) (audio_array : Np.ndarray) (sample_rate : Z)
    : M (bytes * Z * Z) :=
  n ← lift (Np.len audio_array);
  duration_ms ← lift (qwen_duration_ms n sample_rate);
  let temp_file := qwen_temp_file in
  write_via temp_file (fun k => wavfile_write E k sample_rate audio_array);;
  audio_data ← read_file temp_file;
  os_remove temp_file;;
  ret (audio_data, sample_rate, duration_ms).

(** The array of line 239. *)
Definition as_array (wavs : Wavs) : result Np.ndarray :=
  if is_tensor wavs then cpu_numpy wavs else np_array wavs.

(** Line 87: [speed: float = Field(default=1.0, ge=0.5, le=2.0)], the
    bounds checked on a request before a handler sees it. *)
Definition speed_ge : spec_float :=
  Eval vm_compute in PyFloat.div (PyFloat.of_int 1) (PyFloat.of_int 2).
Definition speed_le : spec_float :=
  Eval vm_compute in PyFloat.of_int 2.
Definition speed_accepted (speed : spec_float) : bool :=
  SFleb speed_ge speed && SFleb speed speed_le.

(** The last step of [binary_round_aux] at binary64: the rounded record
    becomes zero, a finite number or an infinity. *)
Definition round_finish (sx : bool) (x : shr_record * Z) : spec_float :=
  let '(mrs, e) := x in
  match shr_m mrs with
  | Z0 => S754_zero sx
  | Zpos m => if e <=? 1024 - 53 then S754_finite sx m e else S754_infinity sx
  | _ => S754_nan
  end.

(** ** More concrete environments *)

Module Cases.

(** Neither a model nor pyttsx3. *)
Definition no_backend : Env :=
  Scenario.env false (Raise Scenario.some_exn) (Scenario.wrote []) 22050 22050.

(** A model object with neither generation method. *)
Definition methodless_model : Qwen3TTSModel :=
  {| generate_voice_design := None; generate := None |}.

Definition methodless : Env :=
  Scenario.env true (Ok methodless_model) (Scenario.wrote []) 22050 22050.

(** A base model: plain generation only, two int16 samples at 3 Hz. *)
Definition plain_model : Qwen3TTSModel :=
  {| generate_voice_design := None;
     generate :=
       Some (fun _ _ _ _ =>
               Ok ({| is_tensor := false;
                      cpu_numpy := Raise Scenario.some_exn;
                      np_array := Scenario.two_samples |}, 3)) |}.

Definition plain : Env :=
  Scenario.env true (Ok plain_model) (Scenario.wrote [Byte.x52]) 22050 22050.

(** A file system holding a reference recording. *)
Definition with_reference : gmap pystr bytes :=
  {[ u "/data/ref.wav" := [Byte.x52] ]}.

Definition clone_request : VoiceCloneRequest :=
  {| reference_audio_path := u "/data/ref.wav";
     voice_name := u "my voice";
     description := [] |}.

(** The engine has two voices; "daniel" asks for the third. *)
Definition two_voices : list pystr := [u "voice.zero"; u "voice.one"].

(** The system engine fails while rendering, after it has written. *)
Definition render_fails : Env :=
  {| HAS_PYTTSX3 := true;
     getenv := getenv Scenario.healthy;
     expanduser := expanduser Scenario.healthy;
     from_pretrained := fun _ _ => Raise Scenario.some_exn;
     pyttsx3_init := pyttsx3_init Scenario.healthy;
     run_and_wait := fun _ _ _ _ =>
       {| written := Some [Byte.x52]; raised := Some Scenario.some_exn |};
     wavfile_write := wavfile_write Scenario.healthy;
     wave_open := wave_open Scenario.healthy;
     b64encode := b64encode Scenario.healthy;
     exn_str := exn_str Scenario.healthy;
     cast_invalid := cast_invalid Scenario.healthy;
     int_of_str := int_of_str Scenario.healthy;
     uuid4 := uuid4 Scenario.healthy;
     str_lower := str_lower Scenario.healthy |}.

(** The healthy server after the model has generated for [hello]. *)
Definition generated_world : World :=
  Eval vm_compute in
    snd (qwen_audio_array Scenario.healthy
           (Scenario.design_model Scenario.two_samples 3)
           (text Scenario.hello) (voice Scenario.hello)
           (prosody_instruction Scenario.hello)
           (Scenario.started Scenario.healthy)).

(** A model reporting a sample rate of zero. *)
Definition zero_rate : Env :=
  Scenario.env true (Ok (Scenario.design_model Scenario.two_samples 0))
    (Scenario.wrote [Byte.x52]) 22050 22050.

Definition zero_rate_world : World :=
  Eval vm_compute in
    snd (qwen_audio_array zero_rate
           (Scenario.design_model Scenario.two_samples 0)
           (text Scenario.hello) (voice Scenario.hello)
           (prosody_instruction Scenario.hello)
           (Scenario.started zero_rate)).

(** One float32 sample in an array of shape (1, 1). *)
Definition single_sample : Np.ndarray :=
  Np.FloatArray Np.float32 [1%nat; 1%nat] [S754_zero false].

Definition single_sample_env : Env :=
  Scenario.env true (Ok (Scenario.design_model (Ok single_sample) 24000))
    (Scenario.wrote [Byte.x52]) 22050 22050.

Definition single_sample_world : World :=
  Eval vm_compute in
    snd (qwen_generate (Scenario.design_model (Ok single_sample) 24000)
           (text Scenario.hello) (voice Scenario.hello)
           (prosody_instruction Scenario.hello)
           (Scenario.started single_sample_env)).

(** The default speed, [1.0]. *)
Definition normal_speed : spec_float := Eval vm_compute in PyFloat.of_int 1.

(** A load that ends the interpreter: [SystemExit] is outside
    [Exception]. *)
Definition load_exits : Env :=
  Scenario.env true (Raise (PyError (u "SystemExit") (u "1")))
    (Scenario.wrote []) 22050 22050.

(** A loaded model whose generation is interrupted from the keyboard. *)
Definition interrupt : exn := PyError (u "KeyboardInterrupt") (u "").

Definition interrupted_model : Qwen3TTSModel :=
  {| generate_voice_design := Some (fun _ _ _ _ _ => Raise interrupt);
     generate := None |}.

Definition generation_interrupted : Env :=
  Scenario.env true (Ok interrupted_model) (Scenario.wrote []) 22050 22050.

End Cases.
(** * Properties *)

(** ** Whitespace and [strip] *)

Lemma lstrip_nil_iff (s : pystr) :
  PyStr.lstrip s = [] <-> forallb PyStr.isspace s = true.
Proof.
  induction s as [|c r IH]; simpl; [tauto|].
  destruct (PyStr.isspace c); simpl; [exact IH|].
  split; discriminate.
Qed.

Lemma lstrip_head (s : pystr) (c : N) (r : pystr) :
  PyStr.lstrip s = c :: r -> PyStr.isspace c = false.
Proof.
  induction s as [|d t IH]; simpl; [discriminate|].
  destruct (PyStr.isspace d) eqn:Hd; [exact IH|].
  intros [= <- _]. exact Hd.
Qed.

Lemma forallb_rev {A} (p : A -> bool) (l : list A) :
  forallb p (rev l) = forallb p l.
Proof.
  induction l as [|a l IH]; simpl; [reflexivity|].
  rewrite forallb_app, IH. simpl. rewrite andb_true_r. apply andb_comm.
Qed.

Lemma strip_nil_iff (s : pystr) :
  PyStr.strip s = [] <-> forallb PyStr.isspace s = true.
Proof.
  unfold PyStr.strip, PyStr.rstrip.
  rewrite <- lstrip_nil_iff.
  split.
  - intros H.
    assert (Hr : PyStr.lstrip (rev (PyStr.lstrip s)) = []).
    { rewrite <- (rev_involutive (PyStr.lstrip _)), H. reflexivity. }
    apply lstrip_nil_iff in Hr. rewrite forallb_rev in Hr.
    destruct (PyStr.lstrip s) as [|c r] eqn:Hs; [reflexivity|].
    apply lstrip_head in Hs. simpl in Hr. rewrite Hs in Hr. discriminate.
  - intros ->. reflexivity.
Qed.

(** The guard of line 331 fires exactly on the texts made of whitespace
    only, the empty text among them. *)
Lemma text_missing_spec (t : pystr) :
  text_missing t = forallb PyStr.isspace t.
Proof.
  unfold text_missing.
  destruct (forallb PyStr.isspace t) eqn:Hall.
  - apply strip_nil_iff in Hall. rewrite Hall. simpl. apply orb_true_r.
  - destruct t as [|c r]; [discriminate|]. simpl.
    destruct (PyStr.strip (c :: r)) eqn:Hs; [|reflexivity].
    apply strip_nil_iff in Hs. congruence.
Qed.

(** ** C7 *)

(** C7: a [/synthesize] request whose text is empty or made of whitespace
    only is answered with status 400 and detail "Text is required"; the
    world is left as it was, so no engine was called and no file touched. *)
Theorem C7_blank_text_rejected (E : Env) (request : TTSRequest) (w : World) :
  forallb PyStr.isspace (text request) = true ->
  synthesize E request w
  = (Raise (HTTPException 400 (u "Text is required")), w).
Proof.
  intros Hblank. unfold synthesize.
  rewrite text_missing_spec, Hblank. reflexivity.
Qed.

Lemma C7_blank_text_rejected_witness :
  let request := TTSRequest_defaults (u "  ") in
  let w := Scenario.started Scenario.healthy in
  forallb PyStr.isspace (text request) = true
  /\ synthesize Scenario.healthy request w
     = (Raise (HTTPException 400 (u "Text is required")), w).
Proof.
  split; [reflexivity|].
  apply (C7_blank_text_rejected Scenario.healthy
           (TTSRequest_defaults (u "  "))).
  reflexivity.
Defined.

(** ** C10 *)

Lemma choose_synthesis_format (E : Env) (fmt : pystr) (request : TTSRequest) :
  choose_synthesis E (with_output_format fmt request)
  = choose_synthesis E request.
Proof. reflexivity. Qed.

Lemma synthesize_unfold (E : Env) (request : TTSRequest) (w : World) :
  text_missing (text request) = false ->
  synthesize E request w
  = response_of E request (choose_synthesis E request w).
Proof.
  intros Hok. unfold synthesize, response_of, try_except.
  rewrite Hok. unfold mbind, M_bind, bind.
  destruct (choose_synthesis E request w) as [[[[audio rate] dur]|e] w'];
    reflexivity.
Qed.

(** C10: the [format] of a 200 answer is the request's [output_format]
    verbatim, "wav" when the field is left out; the audio, its duration and
    its rate do not depend on that field, so asking for another format
    relabels the same bytes. *)
Theorem C10_format_echoes_request
    (E : Env) (request : TTSRequest) (w w' : World) (resp : TTSResponse) :
  synthesize E request w = (Ok resp, w') ->
  format resp = output_format request
  /\ (forall t, output_format (TTSRequest_defaults t) = u "wav")
  /\ forall fmt,
       synthesize E (with_output_format fmt request) w
       = (Ok {| audio_data := audio_data resp;
                duration_ms := duration_ms resp;
                sample_rate := sample_rate resp;
                format := fmt |}, w').
Proof.
  intros Hrun.
  destruct (text_missing (text request)) eqn:Hmiss.
  { unfold synthesize in Hrun. rewrite Hmiss in Hrun. discriminate. }
  rewrite synthesize_unfold in Hrun by exact Hmiss.
  split; [|split; [reflexivity|]].
  - unfold response_of in Hrun.
    destruct (choose_synthesis E request w) as [[[[audio rate] dur]|e] w1];
      [|destruct (is_Exception e); discriminate].
    injection Hrun as <- <-. reflexivity.
  - intros fmt. rewrite synthesize_unfold by exact Hmiss.
    rewrite choose_synthesis_format. unfold response_of in *.
    destruct (choose_synthesis E request w) as [[[[audio rate] dur]|e] w1];
      [|destruct (is_Exception e); discriminate].
    injection Hrun as <- <-. reflexivity.
Qed.

Lemma C10_format_echoes_request_witness :
  synthesize Scenario.healthy Scenario.hello
    (Scenario.started Scenario.healthy)
  = (Ok Scenario.healthy_answer, Scenario.healthy_world)
  /\ format Scenario.healthy_answer = output_format Scenario.hello.
Proof.
  assert (H : synthesize Scenario.healthy Scenario.hello
                (Scenario.started Scenario.healthy)
              = (Ok Scenario.healthy_answer, Scenario.healthy_world))
    by (vm_compute; reflexivity).
  split; [exact H|].
  exact (proj1 (C10_format_echoes_request _ _ _ _ _ H)).
Defined.

(** ** C5 *)

Lemma voice_instruct_eq (prosody : pystr) :
  voice_instruct prosody = instruction_for prosody.
Proof.
  unfold voice_instruct, instruction_for, PyStr.eqb.
  destruct prosody as [|c r]; [reflexivity|].
  simpl PyStr.truthy. rewrite andb_true_l.
  destruct (decide (c :: r = u "speak normally")) as [Heq|Hne].
  - rewrite (bool_decide_eq_true_2 _ Heq). simpl.
    rewrite bool_decide_eq_true_2 by (right; exact Heq). reflexivity.
  - rewrite (bool_decide_eq_false_2 _ Hne). simpl.
    rewrite bool_decide_eq_false_2; [reflexivity|].
    intros [H|H]; [discriminate|contradiction].
Qed.

(** C5, as stated, fails: an empty prosody is not the sentinel, yet the
    model is not handed the empty string but the neutral instruction. *)
Lemma C5_empty_prosody_replaced :
  ([] : pystr) <> u "speak normally"
  /\ spec_instruction [] = []
  /\ voice_instruct [] = u "Speak in a natural, clear voice"
  /\ voice_instruct [] <> spec_instruction [].
Proof.
  repeat split; try discriminate; reflexivity.
Qed.

(** C5, amended: under voice-design generation the call made to the model
    carries the prosody verbatim unless the prosody is empty or equals
    "speak normally"; in these two cases it carries exactly
    "Speak in a natural, clear voice". *)
Theorem C5_instruction_passed
    (m : Qwen3TTSModel) (text voice prosody : pystr) (w : World)
    (gvd : nat -> pystr -> pystr -> pystr -> pystr -> result (Wavs * Z)) :
  generate_voice_design m = Some gvd ->
  let after := qwen_generate m text voice prosody w in
  trace (snd after)
  = trace w
    ++ [CallGenerateVoiceDesign text (u "English") voice
          (instruction_for prosody)]
  /\ fst after
     = gvd (clock w) text (u "English") voice (instruction_for prosody).
Proof.
  intros Hgvd. unfold qwen_generate. rewrite Hgvd.
  rewrite voice_instruct_eq.
  unfold mbind, M_bind, bind, emit, modify, ext, lift. simpl.
  destruct (gvd (clock w) text (u "English") voice (instruction_for prosody));
    split; reflexivity.
Qed.

Lemma C5_instruction_passed_witness :
  let m := Scenario.design_model Scenario.two_samples 3 in
  let w := initial_world ∅ in
  generate_voice_design m <> None
  /\ trace (snd (qwen_generate m (u "Hi") (u "default") (u "whisper") w))
     = [CallGenerateVoiceDesign (u "Hi") (u "English") (u "default")
          (u "whisper")].
Proof.
  split; [discriminate|].
  exact (proj1 (C5_instruction_passed
                  (Scenario.design_model Scenario.two_samples 3)
                  (u "Hi") (u "default") (u "whisper") (initial_world ∅)
                  _ eq_refl)).
Defined.

(** ** C3 *)

Lemma trunc_mag_floor (m : positive) (e : Z) :
  PyFloat.trunc_mag m e = floor_dyadic m e.
Proof.
  unfold PyFloat.trunc_mag, floor_dyadic.
  destruct e as [|p|p].
  - simpl. lia.
  - rewrite Z.shiftl_mul_pow2 by lia. reflexivity.
  - rewrite Z.shiftr_div_pow2 by lia. reflexivity.
Qed.

Lemma floor_dyadic_nonneg (m : positive) (e : Z) : 0 <= floor_dyadic m e.
Proof.
  unfold floor_dyadic. destruct (0 <=? e) eqn:He.
  - apply Z.leb_le in He. apply Z.mul_nonneg_nonneg; [lia|].
    apply Z.pow_nonneg. lia.
  - apply Z.div_pos; [lia|]. apply Z.pow_pos_nonneg; lia.
Qed.

(** [int(f)] succeeds exactly on the finite floats and drops the
    fraction. *)
Lemma py_int_truncates (f : spec_float) (d : Z) :
  PyNum.py_int f = Ok d <-> truncation_of f d.
Proof.
  destruct f as [s|s| |s m e]; simpl.
  - split; [intros [= <-]; reflexivity | intros ->; reflexivity].
  - split; [discriminate | contradiction].
  - split; [discriminate | contradiction].
  - rewrite trunc_mag_floor.
    split; [intros [= <-]; reflexivity | intros ->; reflexivity].
Qed.

(** Rounding keeps the sign it is given. *)
Lemma binary_round_aux_sign prec emax sx mx ex lx :
  sign_is sx (binary_round_aux prec emax sx mx ex lx).
Proof.
  unfold binary_round_aux.
  destruct (shr_fexp prec emax mx ex lx) as [mrs' e'].
  destruct (shr_fexp prec emax _ e' loc_Exact) as [mrs'' e''].
  destruct (shr_m mrs''); simpl; [reflexivity| |exact I].
  destruct (e'' <=? emax - prec); reflexivity.
Qed.

Lemma div_exact_sign (n R : Z) :
  0 <= n -> 0 < R -> sign_is false (PyFloat.div (PyFloat.exact n) (PyFloat.exact R)).
Proof.
  intros Hn HR. destruct R as [|r|r]; try lia.
  destruct n as [|p|p]; try lia; simpl; [reflexivity|].
  unfold PyFloat.div, SFdiv.
  destruct (SFdiv_core_binary _ _ _ _ _ _) as [[mz ez] lz].
  apply (binary_round_aux_sign _ _ (xorb false false)).
Qed.

Lemma mul_1000_sign (q : spec_float) :
  sign_is false q ->
  sign_is false (PyFloat.mul q (PyFloat.of_int 1000)).
Proof.
  intros Hs.
  destruct (PyFloat.of_int 1000) as [t|t| |t k ek] eqn:Hk;
    vm_compute in Hk; try discriminate.
  injection Hk as <- _ _.
  destruct q as [s|s| |s m e]; simpl in Hs; subst; try reflexivity.
  unfold PyFloat.mul, SFmul.
  apply (binary_round_aux_sign _ _ (xorb false false)).
Qed.

Lemma truncation_nonneg (f : spec_float) (d : Z) :
  sign_is false f -> truncation_of f d -> 0 <= d.
Proof.
  destruct f as [s|s| |s m e]; simpl; try contradiction.
  - intros _ ->. lia.
  - intros -> ->. apply floor_dyadic_nonneg.
Qed.

Lemma qwen_duration_ms_spec (n R : Z) (d : Z) :
  qwen_duration_ms n R = Ok d
  <-> exists q, PyNum.int_truediv n R = Ok q
                /\ truncation_of (PyFloat.mul q (PyFloat.of_int 1000)) d.
Proof.
  unfold qwen_duration_ms.
  destruct (PyNum.int_truediv n R) as [q|e].
  - rewrite py_int_truncates. split.
    + intros H. exists q. split; [reflexivity | exact H].
    + intros (q' & [= <-] & H). exact H.
  - split; [discriminate | intros (q' & Hq & _); discriminate].
Qed.

Lemma system_duration_ms_spec (frames rate : Z) (d : Z) :
  system_duration_ms frames rate = Ok d
  <-> exists frate fframes duration,
        PyNum.py_float rate = Ok frate
        /\ PyNum.py_float frames = Ok fframes
        /\ PyNum.float_truediv fframes frate = Ok duration
        /\ truncation_of (PyFloat.mul duration (PyFloat.of_int 1000)) d.
Proof.
  unfold system_duration_ms.
  destruct (PyNum.py_float rate) as [frate|e1].
  2: { split; [discriminate | intros (? & ? & ? & [=] & _)]. }
  destruct (PyNum.py_float frames) as [fframes|e2].
  2: { split; [discriminate | intros (? & ? & ? & _ & [=] & _)]. }
  destruct (PyNum.float_truediv fframes frate) as [duration|e3] eqn:Hd.
  2: { split; [discriminate|].
       intros (a & b & c & [= <-] & [= <-] & Hc & _).
       rewrite Hd in Hc. discriminate. }
  rewrite py_int_truncates. split.
  - intros H. exists frate, fframes, duration. auto.
  - intros (a & b & c & [= <-] & [= <-] & Hc & H).
    rewrite Hd in Hc. injection Hc as <-. exact H.
Qed.

(** C3, as stated, fails: 23 samples at 24 kHz last 0.958 ms, which rounds
    to 1, and both backends report 0. *)
Lemma C3_duration_not_rounded :
  spec_durationMs 23 24000 = 1
  /\ qwen_duration_ms 23 24000 = Ok 0
  /\ system_duration_ms 23 24000 = Ok 0
  /\ qwen_duration_ms 23 24000 <> Ok (spec_durationMs 23 24000).
Proof.
  repeat split; try (vm_compute; reflexivity).
  vm_compute. discriminate.
Qed.

(** The product is a double: 1001 samples at 1 kHz last exactly 1001 ms,
    and [1001 / 1000 * 1000] is just below 1001. *)
Example duration_of_1001_samples :
  qwen_duration_ms 1001 1000 = Ok 1000
  /\ qwen_duration_ms 22050 22050 = Ok 1000
  /\ qwen_duration_ms 2 3 = Ok 666.
Proof. repeat split; vm_compute; reflexivity. Qed.

(** C3, amended: for [n >= 0] samples at a positive rate [R] the reported
    duration is [int(n / R * 1000)]: the double-precision product with its
    fraction dropped, not rounded.  It is never negative, and an empty
    waveform yields 0. *)
Theorem C3_duration_truncated (n R : Z) :
  0 <= n -> 0 < R ->
  qwen_duration_ms 0 R = Ok 0
  /\ forall d,
       (qwen_duration_ms n R = Ok d
        <-> exists q, PyNum.int_truediv n R = Ok q
                      /\ truncation_of
                           (PyFloat.mul q (PyFloat.of_int 1000)) d)
       /\ (system_duration_ms n R = Ok d
           <-> exists frate fframes duration,
                 PyNum.py_float R = Ok frate
                 /\ PyNum.py_float n = Ok fframes
                 /\ PyNum.float_truediv fframes frate = Ok duration
                 /\ truncation_of
                      (PyFloat.mul duration (PyFloat.of_int 1000)) d)
       /\ (qwen_duration_ms n R = Ok d -> 0 <= d).
Proof.
  intros Hn HR. split.
  - unfold qwen_duration_ms, PyNum.int_truediv.
    destruct R as [|r|r]; try lia. reflexivity.
  - intros d. split; [apply qwen_duration_ms_spec|].
    split; [apply system_duration_ms_spec|].
    intros H. apply qwen_duration_ms_spec in H as (q & Hq & Ht).
    assert (Hs : sign_is false q).
    { unfold PyNum.int_truediv in Hq.
      destruct (R =? 0); [discriminate|].
      pose proof (div_exact_sign n R Hn HR) as Hs.
      destruct (PyFloat.div _ _); try discriminate;
        injection Hq as <-; exact Hs. }
    exact (truncation_nonneg _ _ (mul_1000_sign q Hs) Ht).
Qed.

Lemma C3_duration_truncated_witness :
  0 <= 2 /\ 0 < 3
  /\ qwen_duration_ms 0 3 = Ok 0
  /\ (qwen_duration_ms 2 3 = Ok 666 -> 0 <= 666).
Proof.
  split; [lia|]. split; [lia|].
  pose proof (C3_duration_truncated 2 3 ltac:(lia) ltac:(lia)) as [H0 H].
  split; [exact H0|]. exact (proj2 (proj2 (H 666))).
Defined.

(** ** C4 *)

(** C4 at the failing input: a float64 waveform is floating point, and
    line 247 tests for float32 and float16 only, so its samples are neither
    clamped nor scaled nor made 16-bit integers.  With a model answering
    [0.5, 2.0] in double precision, the array that goes on to
    [wavfile.write] is that float64 array, 2.0 included. *)
Theorem C4_float64_left_unconverted :
  (forall (E : Env) (shape : list nat) (data : list spec_float),
     convert_to_int16 E (Np.FloatArray Np.float64 shape data)
     = Np.FloatArray Np.float64 shape data)
  /\ let E := Scenario.float64_output in
     fst (qwen_audio_array E
            (Scenario.design_model Scenario.float64_samples 24000)
            (u "Hi") (u "default") (u "speak normally")
            (Scenario.started E))
     = Ok (Np.FloatArray Np.float64 [2%nat]
             [S754_finite false 4503599627370496 (-53);
              S754_finite false 4503599627370496 (-51)], 24000).
Proof.
  split.
  - intros E shape data. reflexivity.
  - vm_compute. reflexivity.
Qed.

(** Integer arrays pass through unchanged. *)
Lemma convert_to_int16_int
    (E : Env) (t : Np.int_type) (shape : list nat) (data : list Z) :
  convert_to_int16 E (Np.IntArray t shape data) = Np.IntArray t shape data.
Proof. reflexivity. Qed.

(** float32 and float16 arrays become int16 arrays of the same shape, each
    sample clamped, scaled and truncated. *)
Lemma convert_to_int16_float
    (E : Env) (f : Np.float_format) (shape : list nat) (data : list spec_float) :
  f <> Np.float64 ->
  convert_to_int16 E (Np.FloatArray f shape data)
  = Np.IntArray Np.int16 shape
      (map (fun x => Np.to_int16 (cast_invalid E)
                       (Np.scale1 f (Np.clip1 f x))) data).
Proof. destruct f; [reflexivity | reflexivity | congruence]. Qed.

(** float32 samples 0.5, 1.5 and -1.5. *)
Example convert_float32_samples :
  convert_to_int16 Scenario.healthy
    (Np.FloatArray Np.float32 [3%nat]
       [S754_finite false 8388608 (-24);
        S754_finite false 12582912 (-23);
        S754_finite true 12582912 (-23)])
  = Np.IntArray Np.int16 [3%nat] [16383; 32767; -32767].
Proof. vm_compute. reflexivity. Qed.

(** In half precision 32767 is not representable and becomes 32768, so the
    sample 1.0 leaves the 16-bit range and the platform's value is stored. *)
Example convert_float16_one :
  Np.scale1 Np.float16 (Np.clip1 Np.float16 (Np.const Np.float16 1))
  = S754_finite false 1024 5
  /\ convert_to_int16 Scenario.healthy
       (Np.FloatArray Np.float16 [1%nat] [Np.const Np.float16 1])
     = Np.IntArray Np.int16 [1%nat]
         [cast_invalid Scenario.healthy (S754_finite false 1024 5)].
Proof. split; vm_compute; reflexivity. Qed.

(** ** Composing what computations leave unchanged *)

Section Respects.

Variable R : World -> World -> Prop.
Variable allowed : Event -> Prop.
Variable touchable : pystr -> Prop.

Hypothesis R_refl : forall w, R w w.
Hypothesis R_trans : forall w1 w2 w3, R w1 w2 -> R w2 w3 -> R w1 w3.
Hypothesis R_tick : forall w, R w (tick w).
Hypothesis R_event : forall w ev, allowed ev -> R w (add_event ev w).
Hypothesis R_insert :
  forall w p b, touchable p -> R w (set_fs (<[p := b]> (fs w)) w).
Hypothesis R_delete :
  forall w p, touchable p -> R w (set_fs (delete p (fs w)) w).

Lemma respects_ret {A} (a : A) : respects R (ret a).
Proof. intros w. apply R_refl. Qed.

Lemma respects_mret {A} (a : A) : respects R (mret a : M A).
Proof. intros w. apply R_refl. Qed.

Lemma respects_raise {A} (e : exn) : respects R (raise e : M A).
Proof. intros w. apply R_refl. Qed.

Lemma respects_lift {A} (r : result A) : respects R (lift r).
Proof. intros w. apply R_refl. Qed.

Lemma respects_gets {A} (f : World -> A) : respects R (gets f).
Proof. intros w. apply R_refl. Qed.

Lemma respects_ext {A} (f : nat -> A) : respects R (ext f).
Proof. intros w. apply R_tick. Qed.

Lemma respects_emit (ev : Event) : allowed ev -> respects R (emit ev).
Proof. intros Hev w. apply R_event, Hev. Qed.

Lemma respects_bind {A B} (m : M A) (k : A -> M B) :
  respects R m -> (forall a, respects R (k a)) -> respects R (m ≫= k).
Proof.
  intros Hm Hk w. unfold mbind, M_bind, bind.
  specialize (Hm w). destruct (m w) as [[a|e] w1]; simpl in *.
  - eapply R_trans; [exact Hm | apply Hk].
  - exact Hm.
Qed.

Lemma respects_try {A} (body : M A) (handler : exn -> M A) :
  respects R body -> (forall e, respects R (handler e)) ->
  respects R (try_except body handler).
Proof.
  intros Hb Hh w. unfold try_except.
  specialize (Hb w). destruct (body w) as [[a|e] w1]; simpl in *.
  - exact Hb.
  - destruct (is_Exception e); [|exact Hb].
    eapply R_trans; [exact Hb | apply Hh].
Qed.

Lemma respects_when (b : bool) (m : M unit) :
  respects R m -> respects R (when b m).
Proof. intros Hm. destruct b; [exact Hm | apply respects_ret]. Qed.

Lemma respects_fmap {A B} (f : A -> B) (m : M A) :
  respects R m -> respects R (fmap_result f m).
Proof.
  intros Hm w. unfold fmap_result. specialize (Hm w).
  destruct (m w) as [[a|e] w1]; exact Hm.
Qed.

Lemma respects_path_exists (p : pystr) : respects R (path_exists p).
Proof. apply respects_gets. Qed.

Lemma respects_read_file (p : pystr) : respects R (read_file p).
Proof. intros w. unfold read_file. destruct (fs w !! p); apply R_refl. Qed.

Lemma respects_os_remove (p : pystr) :
  touchable p -> respects R (os_remove p).
Proof.
  intros Hp w. unfold os_remove.
  destruct (fs w !! p); simpl; [apply R_delete, Hp | apply R_refl].
Qed.

Lemma respects_insert (p : pystr) (b : bytes) :
  touchable p ->
  respects R (modify (fun w => set_fs (<[p := b]> (fs w)) w)).
Proof. intros Hp w. apply R_insert, Hp. Qed.

Lemma respects_write_via (p : pystr) (call : nat -> io_outcome) :
  touchable p -> respects R (write_via p call).
Proof.
  intros Hp. unfold write_via.
  apply respects_bind; [apply respects_ext | intros o].
  apply respects_bind.
  - apply respects_when. intros w. apply R_insert, Hp.
  - intros _. destruct (raised o); [apply respects_raise | apply respects_ret].
Qed.

Ltac respects_auto :=
  repeat first
    [ apply respects_ret | apply respects_mret | apply respects_raise
    | apply respects_lift | apply respects_gets | apply respects_ext
    | apply respects_path_exists | apply respects_read_file
    | apply respects_when | apply respects_fmap
    | apply respects_bind; [|intros ?; cbv beta zeta]
    | apply respects_try; [|intros ?; cbv beta zeta]
    | match goal with
      | |- respects _ (match ?x with _ => _ end) => destruct x
      end ].

Variable E : Env.

Lemma respects_health_check : respects R (health_check E).
Proof. unfold health_check. respects_auto. Qed.

Lemma respects_clone_voice (r : VoiceCloneRequest) :
  respects R (clone_voice E r).
Proof. unfold clone_voice. respects_auto. Qed.

Lemma respects_root : respects R root.
Proof. unfold root. respects_auto. Qed.

Hypothesis engine_allowed :
  forall ev, is_engine_event ev = true -> allowed ev.

Ltac respects_prim :=
  solve [ apply respects_emit, engine_allowed; reflexivity
        | apply respects_os_remove; assumption
        | apply respects_insert; assumption ].

Lemma respects_read_system_output (p : pystr) :
  touchable p -> respects R (read_system_output E p).
Proof.
  intros Hp. unfold read_system_output. respects_auto; respects_prim.
Qed.

Lemma respects_system_tts (text voice : pystr) (speed : spec_float) :
  touchable system_temp_file ->
  respects R (synthesize_with_system_tts E text voice speed).
Proof.
  intros Hp. unfold synthesize_with_system_tts, from_option.
  respects_auto; respects_prim.
Qed.

Hypothesis generation_allowed :
  forall ev, is_engine_event ev = false -> allowed ev.

Ltac respects_any :=
  solve [ respects_prim
        | apply respects_emit, generation_allowed; reflexivity ].

Lemma respects_qwen_generate (m : Qwen3TTSModel) (text voice prosody : pystr) :
  respects R (qwen_generate m text voice prosody).
Proof. unfold qwen_generate. respects_auto; respects_any. Qed.

Lemma respects_qwen_body (m : Qwen3TTSModel) (text voice prosody : pystr) :
  touchable qwen_temp_file ->
  respects R (qwen_body E m text voice prosody).
Proof.
  intros Hp. unfold qwen_body, qwen_audio_array, qwen_generate.
  respects_auto; respects_any.
Qed.

Lemma respects_synthesize (request : TTSRequest) :
  touchable qwen_temp_file -> touchable system_temp_file ->
  respects R (synthesize E request).
Proof.
  intros Hq Hs.
  unfold synthesize, choose_synthesis, synthesize_with_qwen.
  respects_auto;
    first [ respects_any
          | apply respects_system_tts; assumption
          | apply respects_qwen_generate ].
Qed.

Lemma respects_handle (rq : Request) :
  touchable qwen_temp_file -> touchable system_temp_file ->
  respects R (handle E rq).
Proof.
  intros Hq Hs. destruct rq; simpl; apply respects_fmap.
  - apply respects_health_check.
  - apply respects_synthesize; assumption.
  - apply respects_clone_voice.
  - apply respects_root.
Qed.

Lemma respects_serve (rqs : list Request) (w : World) :
  touchable qwen_temp_file -> touchable system_temp_file ->
  R w (serve E rqs w).
Proof.
  intros Hq Hs. revert w.
  induction rqs as [|rq rest IH]; intros w; simpl; [apply R_refl|].
  eapply R_trans; [apply (respects_handle rq Hq Hs) | apply IH].
Qed.

End Respects.

(** *** The relations at hand *)

Lemma engine_calls_only_refl (w : World) : engine_calls_only w w.
Proof. exists []. split; [symmetry; apply app_nil_r | reflexivity]. Qed.

Lemma engine_calls_only_quiet (w w' : World) :
  trace w' = trace w -> engine_calls_only w w'.
Proof.
  intros H. exists []. split; [rewrite H; symmetry; apply app_nil_r|].
  reflexivity.
Qed.

Lemma engine_calls_only_trans (w1 w2 w3 : World) :
  engine_calls_only w1 w2 -> engine_calls_only w2 w3 ->
  engine_calls_only w1 w3.
Proof.
  intros (e1 & H1 & A1) (e2 & H2 & A2). exists (e1 ++ e2). split.
  - rewrite H2, H1. symmetry. apply app_assoc.
  - rewrite forallb_app, A1, A2. reflexivity.
Qed.

Ltac relation_side :=
  solve [ intros; hnf; auto
        | intros; hnf; simpl; auto
        | intros ? ? ? [? ?] [? ?]; split; congruence
        | intros ? ? ? ? ?; hnf in *; congruence ].

(** No request writes the module globals. *)
Lemma serve_same_globals (E : Env) (rqs : list Request) (w : World) :
  same_globals w (serve E rqs w).
Proof.
  apply (respects_serve same_globals (fun _ => True) (fun _ => True));
    try relation_side.
Qed.

(** The system backend calls the system engine only, and leaves the
    globals alone. *)
Lemma system_tts_engine_only
    (E : Env) (text voice : pystr) (speed : spec_float) (w : World) :
  engine_calls_only w (snd (synthesize_with_system_tts E text voice speed w)).
Proof.
  apply (respects_system_tts engine_calls_only
           (fun ev => is_engine_event ev = true) (fun _ => True)).
  - apply engine_calls_only_refl.
  - apply engine_calls_only_trans.
  - intros w0. apply engine_calls_only_quiet. reflexivity.
  - intros w0 ev Hev. exists [ev]. split; [reflexivity|].
    simpl. rewrite Hev. reflexivity.
  - intros. apply engine_calls_only_quiet. reflexivity.
  - intros. apply engine_calls_only_quiet. reflexivity.
  - auto.
  - exact I.
Qed.

Lemma system_tts_same_globals
    (E : Env) (text voice : pystr) (speed : spec_float) (w : World) :
  same_globals w (snd (synthesize_with_system_tts E text voice speed w)).
Proof.
  apply (respects_system_tts same_globals (fun _ => True) (fun _ => True));
    try relation_side.
Qed.

(** ** C9 *)

Lemma health_check_answer (E : Env) (w : World) :
  health_check E w = (health_answer E (MODEL_LOADED w), w).
Proof.
  unfold health_check, health_answer, mbind, M_bind, bind, lift, gets.
  destruct (int_of_str E _); reflexivity.
Qed.

(** C9: whatever requests are served after a [/health] call, a later
    [/health] call answers the same, [model_loaded] included: both answers
    are the one determined by the value [MODEL_LOADED] had at the first
    call, because no route writes [MODEL_LOADED] or [model]. *)
Theorem C9_health_stable (E : Env) (w : World) (rqs : list Request) :
  MODEL_LOADED (serve E rqs w) = MODEL_LOADED w
  /\ model (serve E rqs w) = model w
  /\ fst (health_check E w) = health_answer E (MODEL_LOADED w)
  /\ fst (health_check E (serve E rqs w)) = health_answer E (MODEL_LOADED w).
Proof.
  destruct (serve_same_globals E rqs w) as [Hm Hl].
  rewrite !health_check_answer. simpl. rewrite Hl.
  repeat split; assumption || reflexivity.
Qed.

(** Two [/health] calls of one run agree on [model_loaded]. *)
Example health_twice :
  let E := Scenario.load_fails in
  let w := Scenario.started E in
  let later :=
    serve E [PostSynthesize Scenario.hello; GetRoot; GetHealth] w in
  fst (health_check E w) = fst (health_check E later).
Proof. vm_compute. reflexivity. Qed.

(** ** C1 *)

(** The one call [load_qwen_model] makes, and what each outcome of it
    leaves: a stored model, the fallback flag, or, for an exception outside
    [Exception], the exception itself with both globals untouched. *)
Lemma load_qwen_model_outcome (E : Env) (w : World) :
  load_qwen_model E w
  = match from_pretrained E (clock w) (load_target E w) with
    | Ok m => (Ok tt, set_MODEL_LOADED true (set_model (Some m) (tick w)))
    | Raise e =>
        if is_Exception e
        then (Ok tt, set_MODEL_LOADED (HAS_PYTTSX3 E) (tick w))
        else (Raise e, tick w)
    end.
Proof.
  unfold load_qwen_model, load_target, MODEL_ID,
    try_except, mbind, M_bind, bind, path_exists, gets, ext, lift, ret,
    modify.
  destruct (getenv E (u "QWEN_MODEL_PATH")) as [p|]; simpl.
  - destruct (PyStr.truthy p); simpl.
    + destruct (bool_decide (is_Some (fs w !! p))); simpl.
      * destruct (from_pretrained E (clock w) p) as [m|e];
          [|destruct (is_Exception e)]; reflexivity.
      * destruct (bool_decide _); simpl;
          (destruct (from_pretrained E (clock w) _) as [m|e];
             [|destruct (is_Exception e)]; reflexivity).
    + destruct (bool_decide _); simpl;
        (destruct (from_pretrained E (clock w) _) as [m|e];
           [|destruct (is_Exception e)]; reflexivity).
  - destruct (bool_decide _); simpl;
      (destruct (from_pretrained E (clock w) _) as [m|e];
         [|destruct (is_Exception e)]; reflexivity).
Qed.

Lemma load_failure (E : Env) (w : World) (e : exn) :
  from_pretrained E (clock w) (load_target E w) = Raise e ->
  is_Exception e = true ->
  load_qwen_model E w = (Ok tt, set_MODEL_LOADED (HAS_PYTTSX3 E) (tick w)).
Proof.
  intros Hfail Hexc. rewrite load_qwen_model_outcome, Hfail, Hexc.
  reflexivity.
Qed.

Lemma choose_without_model (E : Env) (request : TTSRequest) (w : World) :
  model w = None ->
  choose_synthesis E request w
  = synthesize_with_system_tts E (text request) (voice request)
      (speed request) w.
Proof.
  intros Hnone.
  unfold choose_synthesis, synthesize_with_qwen, mbind, M_bind, bind, gets.
  destruct (MODEL_LOADED w); [rewrite Hnone|]; reflexivity.
Qed.

Lemma synthesize_world (E : Env) (request : TTSRequest) (w : World) :
  snd (synthesize E request w) = w
  \/ snd (synthesize E request w) = snd (choose_synthesis E request w).
Proof.
  destruct (text_missing (text request)) eqn:Hmiss.
  - left. unfold synthesize. rewrite Hmiss. reflexivity.
  - right. rewrite synthesize_unfold by exact Hmiss. unfold response_of.
    destruct (choose_synthesis E request w) as [[[[a r] d]|e] w'];
      [|destruct (is_Exception e)]; reflexivity.
Qed.

Lemma handle_without_model (E : Env) (rq : Request) (w : World) :
  model w = None -> engine_calls_only w (snd (handle E rq w)).
Proof.
  intros Hnone.
  assert (Hquiet : forall A (m : M A),
             respects same_trace m -> engine_calls_only w (snd (m w))).
  { intros A m Hm. apply engine_calls_only_quiet, Hm. }
  assert (Hfmap : forall A B (f : A -> B) (m : M A),
             snd (fmap_result f m w) = snd (m w)).
  { intros A B f m. unfold fmap_result.
    destruct (m w) as [[a|e] w']; reflexivity. }
  destruct rq as [|r|r|]; unfold handle; rewrite Hfmap.
  - rewrite health_check_answer. apply engine_calls_only_refl.
  - destruct (synthesize_world E r w) as [-> | ->].
    + apply engine_calls_only_refl.
    + rewrite choose_without_model by exact Hnone.
      apply system_tts_engine_only.
  - apply Hquiet.
    apply (respects_clone_voice same_trace); try relation_side.
  - apply engine_calls_only_refl.
Qed.

Lemma serve_without_model (E : Env) (rqs : list Request) (w : World) :
  model w = None ->
  model (serve E rqs w) = None /\ engine_calls_only w (serve E rqs w).
Proof.
  intros Hnone. split.
  - destruct (serve_same_globals E rqs w) as [Hm _]. congruence.
  - revert w Hnone.
    induction rqs as [|rq rest IH]; intros w Hnone; simpl.
    + apply engine_calls_only_refl.
    + eapply engine_calls_only_trans.
      * apply handle_without_model, Hnone.
      * apply IH.
        destruct (serve_same_globals E [rq] w) as [Hm _].
        simpl in Hm. congruence.
Qed.

(** C1, as stated, fails: on a host that has pyttsx3 a failed load leaves
    [MODEL_LOADED] true, and [/health] reports the model as loaded. *)
Lemma C1_flag_true_after_failed_load :
  let E := Scenario.load_fails in
  let w := Scenario.started E in
  (forall n p, is_ok (from_pretrained E n p) = false)
  /\ MODEL_LOADED w = true
  /\ fst (health_check E w)
     = Ok {| status := u "healthy"; model_loaded := true;
             model_name := Some MODEL_NAME; port := 7860 |}.
Proof.
  split; [intros; reflexivity|].
  split; vm_compute; reflexivity.
Qed.

(** A load that ends in an exception outside [Exception] is not caught:
    start-up raises it, and [MODEL_LOADED] stays false even with pyttsx3. *)
Example startup_aborted_by_exit :
  let E := Cases.load_exits in
  HAS_PYTTSX3 E = true
  /\ fst (lifespan_startup E (initial_world ∅))
     = Raise (PyError (u "SystemExit") (u "1"))
  /\ MODEL_LOADED (snd (lifespan_startup E (initial_world ∅))) = false.
Proof. repeat split; vm_compute; reflexivity. Qed.

(** C1, amended: if the model load of start-up fails with an exception
    [e] that derives from [Exception], start-up still completes, the model
    handle stays unset and [MODEL_LOADED] becomes [HAS_PYTTSX3]; from then
    on every [/synthesize] request is served by the system voice backend
    alone, and no generation method of a model is ever called. *)
Theorem C1_failed_load_falls_back
    (E : Env) (files : gmap pystr bytes) (e : exn) :
  from_pretrained E 0 (load_target E (initial_world files)) = Raise e ->
  is_Exception e = true ->
  let boot := lifespan_startup E (initial_world files) in
  fst boot = Ok tt
  /\ model (snd boot) = None
  /\ MODEL_LOADED (snd boot) = HAS_PYTTSX3 E
  /\ forall rqs request,
       let w := serve E rqs (snd boot) in
       choose_synthesis E request w
       = synthesize_with_system_tts E (text request) (voice request)
           (speed request) w
       /\ forallb is_engine_event (trace (snd (synthesize E request w)))
          = true.
Proof.
  intros Hfail Hexc. unfold lifespan_startup.
  rewrite (load_failure E (initial_world files) e Hfail Hexc). simpl.
  repeat split; try reflexivity.
  - apply choose_without_model.
    apply (serve_without_model E rqs). reflexivity.
  - set (w0 := set_MODEL_LOADED (HAS_PYTTSX3 E) (tick (initial_world files))).
    destruct (serve_without_model E rqs w0 eq_refl) as [Hnone Hserve].
    assert (Hsyn : engine_calls_only (serve E rqs w0)
                     (snd (synthesize E request (serve E rqs w0)))).
    { destruct (synthesize_world E request (serve E rqs w0)) as [-> | ->].
      - apply engine_calls_only_refl.
      - rewrite choose_without_model by exact Hnone.
        apply system_tts_engine_only. }
    destruct (engine_calls_only_trans _ _ _ Hserve Hsyn) as (evs & Ht & Hall).
    rewrite Ht. exact Hall.
Qed.

Lemma C1_failed_load_falls_back_witness :
  let E := Scenario.load_fails in
  from_pretrained E 0 (load_target E (initial_world ∅))
  = Raise Scenario.some_exn
  /\ is_Exception Scenario.some_exn = true
  /\ fst (lifespan_startup E (initial_world ∅)) = Ok tt
  /\ model (Scenario.started E) = None
  /\ MODEL_LOADED (Scenario.started E) = HAS_PYTTSX3 E.
Proof.
  split; [reflexivity|]. split; [reflexivity|].
  pose proof (C1_failed_load_falls_back Scenario.load_fails ∅
                Scenario.some_exn eq_refl eq_refl) as (Hb & Hm & Hl & _).
  split; [exact Hb|]. split; [exact Hm | exact Hl].
Defined.

(** ** C2 *)




(** ** Stepping through a computation *)

Lemma step_emit {A} (ev : Event) (k : unit -> M A) (w : World) :
  (emit ev ≫= k) w = k tt (add_event ev w).
Proof. reflexivity. Qed.

Lemma step_ext {A B} (f : nat -> A) (k : A -> M B) (w : World) :
  (ext f ≫= k) w = k (f (clock w)) (tick w).
Proof. reflexivity. Qed.

Lemma step_lift_ok {A B} (a : A) (k : A -> M B) (w : World) :
  (lift (Ok a) ≫= k) w = k a w.
Proof. reflexivity. Qed.

Lemma step_lift_raise {A B} (e : exn) (k : A -> M B) (w : World) :
  (lift (Raise e) ≫= k) w = (Raise e, w).
Proof. reflexivity. Qed.

Lemma step_ret {A B} (a : A) (k : A -> M B) (w : World) :
  (ret a ≫= k) w = k a w.
Proof. reflexivity. Qed.

(** Rendering and reading back call no engine method. *)
Lemma system_tail_quiet
    (E : Env) (text : pystr) (chosen : option pystr) (rate : Z) (w : World) :
  trace (snd ((write_via system_temp_file
                 (fun n => run_and_wait E n text chosen rate)
               ≫= fun _ => read_system_output E system_temp_file) w))
  = trace w.
Proof.
  apply (respects_bind same_trace); try relation_side.
  - apply (respects_write_via same_trace (fun _ => True)); try relation_side.
  - intros _.
    apply (respects_read_system_output same_trace (fun _ => True));
      try relation_side.
Qed.

(** ** C8 *)

(** C8, as stated, fails on the rate: at speed 0.5078125 the product
    [200 * speed] is 101.5625, and the engine is given 101. *)
Lemma C8_rate_is_truncated :
  let speed := Scenario.speed_65_128 in
  let product := PyFloat.mul (PyFloat.of_int base_rate) speed in
  SFleb (PyFloat.of_int 1) (PyFloat.mul (PyFloat.of_int 2) speed) = true
  /\ SFleb speed (PyFloat.of_int 2) = true
  /\ PyNum.py_int product = Ok 101
  /\ SFltb (PyFloat.of_int 101) product = true
  /\ trace (snd (synthesize_with_system_tts Scenario.healthy (u "Hi")
                   (u "nobody") speed (initial_world ∅)))
     = [EngineInit; EngineSetVoice (u "voice.zero"); EngineSetRate 101;
        EngineSaveToFile (u "Hi") system_temp_file; EngineRunAndWait].
Proof. repeat split; vm_compute; reflexivity. Qed.

(** C8, amended: for a voice name that is not in [VOICE_MAP] the system
    backend selects the engine's first voice, index 0, when the engine has
    any, and raises nothing for the name; the engine rate is
    [int(200 * speed)], the product with its fraction dropped. *)
Theorem C8_unknown_voice_and_rate
    (E : Env) (text voice : pystr) (speed : spec_float) (w : World)
    (voices : list pystr) :
  HAS_PYTTSX3 E = true ->
  VOICE_MAP !! voice = None ->
  pyttsx3_init E (clock w) = Ok voices ->
  let after := synthesize_with_system_tts E text voice speed w in
  let pick := match voices with [] => [] | v :: _ => [EngineSetVoice v] end in
  match PyNum.py_int (PyFloat.mul (PyFloat.of_int 200) speed) with
  | Ok rate =>
      trace (snd after)
      = trace w ++ [EngineInit] ++ pick
        ++ [EngineSetRate rate; EngineSaveToFile text system_temp_file;
            EngineRunAndWait]
  | Raise e =>
      fst after = Raise e /\ trace (snd after) = trace w ++ [EngineInit] ++ pick
  end.
Proof.
  intros Has Hvoice Hinit. cbv zeta.
  unfold synthesize_with_system_tts. rewrite Has, Hvoice.
  change (negb true) with false. cbv iota beta zeta.
  rewrite step_emit, step_ext. simpl clock. rewrite Hinit, step_lift_ok.
  change (default 0%nat None) with 0%nat.
  change base_rate with 200.
  destruct voices as [|v rest].
  - simpl from_option.
    rewrite step_ret.
    destruct (PyNum.py_int (PyFloat.mul (PyFloat.of_int 200) speed)) as [rate|e].
    + rewrite step_lift_ok, !step_emit, system_tail_quiet. simpl.
      rewrite <- !app_assoc. reflexivity.
    + rewrite step_lift_raise. simpl. split; reflexivity.
  - simpl from_option.
    rewrite step_emit.
    destruct (PyNum.py_int (PyFloat.mul (PyFloat.of_int 200) speed)) as [rate|e].
    + rewrite step_lift_ok, !step_emit, system_tail_quiet. simpl.
      rewrite <- !app_assoc. reflexivity.
    + rewrite step_lift_raise. simpl. rewrite <- !app_assoc.
      split; reflexivity.
Qed.

Lemma C8_unknown_voice_and_rate_witness :
  let E := Scenario.healthy in
  let w := initial_world ∅ in
  HAS_PYTTSX3 E = true
  /\ VOICE_MAP !! u "nobody" = None
  /\ match PyNum.py_int
             (PyFloat.mul (PyFloat.of_int 200) Scenario.speed_65_128) with
     | Ok rate =>
         trace (snd (synthesize_with_system_tts E (u "Hi") (u "nobody")
                       Scenario.speed_65_128 w))
         = trace w ++ [EngineInit] ++ [EngineSetVoice (u "voice.zero")]
           ++ [EngineSetRate rate; EngineSaveToFile (u "Hi") system_temp_file;
               EngineRunAndWait]
     | Raise e => False
     end.
Proof.
  split; [reflexivity|].
  split; [vm_compute; reflexivity|].
  pose proof (C8_unknown_voice_and_rate Scenario.healthy (u "Hi")
                (u "nobody") Scenario.speed_65_128 (initial_world ∅)
                [u "voice.zero"; u "voice.one"]
                eq_refl ltac:(vm_compute; reflexivity) eq_refl) as H.
  cbv zeta in H.
  destruct (PyNum.py_int
              (PyFloat.mul (PyFloat.of_int 200) Scenario.speed_65_128))
    as [rate|e] eqn:Hrate.
  - exact H.
  - vm_compute in Hrate. discriminate.
Defined.

(** ** C6 *)

(** The exceptions the code raises by itself derive from [Exception]. *)
Lemma FileNotFoundError_is_Exception (path : pystr) :
  is_Exception (FileNotFoundError path) = true.
Proof. reflexivity. Qed.

(** The system path removes its temporary file on every way out of its
    [try] that an [except Exception] sees: after the read-back the file is
    gone.  An exception outside [Exception] passes the clean-up by, and the
    files are as they were. *)
Lemma read_system_output_cleans (E : Env) (p : pystr) (w : World) :
  let r := read_system_output E p w in
  match fst r with
  | Raise e =>
      if is_Exception e then fs (snd r) !! p = None
      else fs (snd r) = fs w
  | Ok _ => fs (snd r) !! p = None
  end.
Proof.
  cbv zeta.
  unfold read_system_output, try_except, mbind, M_bind, bind, read_file,
    os_remove, path_exists, gets, lift, when, raise, ret.
  destruct (fs w !! p) as [b|] eqn:Hp; simpl.
  - rewrite Hp.
    destruct (wave_open E b) as [[frames rate]|e]; simpl;
      [destruct (system_duration_ms frames rate) as [d|e]; simpl|].
    + repeat (rewrite ?Hp; simpl). apply lookup_delete_eq.
    + destruct (is_Exception e) eqn:He;
        repeat (rewrite ?Hp, ?He; simpl);
        [apply lookup_delete_eq | reflexivity].
    + destruct (is_Exception e) eqn:He;
        repeat (rewrite ?Hp, ?He; simpl);
        [apply lookup_delete_eq | reflexivity].
  - repeat (rewrite ?Hp; simpl). reflexivity.
Qed.

Lemma temp_files_differ : system_temp_file <> qwen_temp_file.
Proof. intros H. vm_compute in H. discriminate. Qed.

(** The system backend touches no file but its own. *)
Lemma system_tts_keeps_file
    (E : Env) (p text voice : pystr) (speed : spec_float) (w : World) :
  system_temp_file <> p ->
  keeps_file p w (snd (synthesize_with_system_tts E text voice speed w)).
Proof.
  intros Hp.
  apply (respects_system_tts (keeps_file p) (fun _ => True)
           (fun q => q <> p)); unfold keeps_file; simpl; auto.
  - intros; congruence.
  - intros w0 q b Hq. apply lookup_insert_ne. exact Hq.
  - intros w0 q Hq. apply lookup_delete_ne. exact Hq.
Qed.

(** The neural path has no such clean-up: whenever [wavfile.write] leaves
    a file behind and raises, the file is still there when
    [synthesize_with_qwen] is done, whether the fallback then succeeds or
    raises. *)
Lemma qwen_failed_write_leaves_file
    (E : Env) (text voice prosody : pystr) (speed : spec_float)
    (w w1 : World) (m : Qwen3TTSModel) (arr : Np.ndarray) (rate n d : Z)
    (b : bytes) (e : exn) :
  model w = Some m ->
  qwen_audio_array E m text voice prosody w = (Ok (arr, rate), w1) ->
  Np.len arr = Ok n ->
  qwen_duration_ms n rate = Ok d ->
  wavfile_write E (clock w1) rate arr
  = {| written := Some b; raised := Some e |} ->
  fs (snd (synthesize_with_qwen E text voice prosody speed w))
  !! qwen_temp_file = Some b.
Proof.
  intros Hm Harr Hlen Hdur Hwrite.
  unfold synthesize_with_qwen, try_except, qwen_body, write_via,
    mbind, M_bind, bind, gets, lift, ext, when, modify, raise.
  rewrite Hm, Harr, Hlen, Hdur, Hwrite. simpl.
  destruct (is_Exception e).
  - rewrite (system_tts_keeps_file E qwen_temp_file _ _ _ _
               temp_files_differ).
    simpl. apply lookup_insert_eq.
  - simpl. apply lookup_insert_eq.
Qed.

(** C6 at the failing input: the model is loaded and [wavfile.write]
    creates the output file and then raises.  The handler of line 268
    falls back to the system voice without removing the file: the request
    is answered with status 200 and [/tmp/qwen_tts_output.wav], absent
    before the call, is still there after it. *)
Theorem C6_output_file_left_behind :
  let E := Scenario.write_fails in
  let w := Scenario.started E in
  let after := synthesize E Scenario.hello w in
  fs w !! qwen_temp_file = None
  /\ is_ok (fst after) = true
  /\ fs (snd after) !! qwen_temp_file = Some []
  /\ fs (snd after) !! system_temp_file = None.
Proof. repeat split; vm_compute; reflexivity. Qed.

(** * Further properties of the server *)

(** ** Start-up *)

(** X1: start-up calls [from_pretrained] once, on the path of
    [QWEN_MODEL_PATH] when that is set, not empty and exists, and on the
    model id otherwise, cached or not.  When the call returns a model,
    start-up stores the handle and sets [MODEL_LOADED]; when it raises an
    exception that derives from [Exception], start-up completes, leaves the
    handle alone and sets [MODEL_LOADED] to [HAS_PYTTSX3]; any other
    exception leaves start-up as it came, with both globals untouched. *)
Theorem X1_startup_outcome (E : Env) (w : World) :
  match from_pretrained E (clock w) (load_target E w) with
  | Ok m =>
      lifespan_startup E w
      = (Ok tt, set_MODEL_LOADED true (set_model (Some m) (tick w)))
  | Raise e =>
      if is_Exception e
      then lifespan_startup E w
           = (Ok tt, set_MODEL_LOADED (HAS_PYTTSX3 E) (tick w))
      else fst (lifespan_startup E w) = Raise e
           /\ model (snd (lifespan_startup E w)) = model w
           /\ MODEL_LOADED (snd (lifespan_startup E w)) = MODEL_LOADED w
  end.
Proof.
  unfold lifespan_startup. rewrite load_qwen_model_outcome.
  destruct (from_pretrained E (clock w) (load_target E w)) as [m|e];
    [reflexivity|].
  destruct (is_Exception e); [reflexivity|].
  repeat split; reflexivity.
Qed.

(** After a start-up that completed, and any requests, a stored model
    handle comes with a set flag, and a cleared flag means there is no
    backend at all. *)
Lemma flag_after_startup
    (E : Env) (files : gmap pystr bytes) (rqs : list Request) :
  fst (lifespan_startup E (initial_world files)) = Ok tt ->
  let w := serve E rqs (snd (lifespan_startup E (initial_world files))) in
  (model w <> None -> MODEL_LOADED w = true)
  /\ (MODEL_LOADED w = false -> model w = None /\ HAS_PYTTSX3 E = false)
  /\ (MODEL_LOADED w = true -> model w <> None \/ HAS_PYTTSX3 E = true).
Proof.
  cbv zeta. unfold lifespan_startup.
  destruct (serve_same_globals E rqs
              (snd (load_qwen_model E (initial_world files)))) as [-> ->].
  rewrite load_qwen_model_outcome.
  destruct (from_pretrained E _ _) as [m|e]; simpl.
  - intros _.
    split; [reflexivity|]. split; [discriminate|]. left. discriminate.
  - destruct (is_Exception e); simpl; [intros _|discriminate].
    split; [congruence|]. split; [intros ->; split; reflexivity|].
    intros ->. right. reflexivity.
Qed.

(** X2: at any moment after a start-up that completed, a stored model
    handle comes with [MODEL_LOADED] set, so a loaded model is never
    bypassed; when [MODEL_LOADED] is false there is neither a model nor
    pyttsx3; and when it is true there is a model or pyttsx3. *)
Theorem X2_flag_covers_model
    (E : Env) (files : gmap pystr bytes) (rqs : list Request) :
  fst (lifespan_startup E (initial_world files)) = Ok tt ->
  let w := serve E rqs (snd (lifespan_startup E (initial_world files))) in
  (model w <> None -> MODEL_LOADED w = true)
  /\ (MODEL_LOADED w = false -> model w = None /\ HAS_PYTTSX3 E = false)
  /\ (MODEL_LOADED w = true -> model w <> None \/ HAS_PYTTSX3 E = true).
Proof.
  intros Hboot. cbv zeta.
  pose proof (flag_after_startup E files rqs Hboot) as H.
  cbv zeta in H. exact H.
Qed.

Lemma X2_flag_covers_model_witness :
  let E := Scenario.healthy in
  let w := serve E [PostSynthesize Scenario.hello; GetHealth]
             (snd (lifespan_startup E (initial_world ∅))) in
  fst (lifespan_startup E (initial_world ∅)) = Ok tt
  /\ (model w <> None -> MODEL_LOADED w = true).
Proof.
  split; [reflexivity|].
  exact (proj1 (X2_flag_covers_model Scenario.healthy ∅
                  [PostSynthesize Scenario.hello; GetHealth] eq_refl)).
Defined.

(** ** Status codes of [/synthesize] *)

Lemma system_tts_unavailable
    (E : Env) (text voice : pystr) (speed : spec_float) (w : World) :
  HAS_PYTTSX3 E = false ->
  synthesize_with_system_tts E text voice speed w = (Raise no_tts_error, w).
Proof.
  intros Hno. unfold synthesize_with_system_tts. rewrite Hno. reflexivity.
Qed.

(** X3: when [MODEL_LOADED] is false after a start-up that completed,
    every request whose text is not blank is answered with status 500, the
    detail being "Synthesis failed: " followed by the rendering of the "TTS
    not available" error, and nothing in the world changes. *)
Theorem X3_no_backend_answers_500
    (E : Env) (files : gmap pystr bytes) (rqs : list Request)
    (request : TTSRequest) :
  fst (lifespan_startup E (initial_world files)) = Ok tt ->
  let w := serve E rqs (snd (lifespan_startup E (initial_world files))) in
  MODEL_LOADED w = false ->
  forallb PyStr.isspace (text request) = false ->
  synthesize E request w
  = (Raise (HTTPException 500
              (u "Synthesis failed: " ++ exn_str E no_tts_error)), w).
Proof.
  intros Hboot. cbv zeta. intros Hflag Htext.
  destruct (flag_after_startup E files rqs Hboot) as (_ & H2 & _).
  destruct (H2 Hflag) as [Hnone Hno].
  rewrite synthesize_unfold by (rewrite text_missing_spec; exact Htext).
  rewrite choose_without_model by exact Hnone.
  rewrite system_tts_unavailable by exact Hno. reflexivity.
Qed.

Lemma X3_no_backend_answers_500_witness :
  let E := Cases.no_backend in
  let w := serve E [GetHealth] (snd (lifespan_startup E (initial_world ∅))) in
  fst (lifespan_startup E (initial_world ∅)) = Ok tt
  /\ MODEL_LOADED w = false
  /\ forallb PyStr.isspace (text Scenario.hello) = false
  /\ synthesize E Scenario.hello w
     = (Raise (HTTPException 500
                 (u "Synthesis failed: " ++ exn_str E no_tts_error)), w).
Proof.
  split; [reflexivity|]. split; [reflexivity|]. split; [reflexivity|].
  apply (X3_no_backend_answers_500 Cases.no_backend ∅ [GetHealth]
           Scenario.hello); reflexivity.
Defined.

(** X4: what [/synthesize] raises.  For a blank text it is the HTTP error
    400 "Text is required".  Otherwise it is either the HTTP error 500 with
    "Synthesis failed: " followed by the rendering of the exception that
    stopped the backend, when that exception derives from [Exception], or
    the backend's exception itself, unchanged, when it does not. *)
Theorem X4_synthesize_errors
    (E : Env) (request : TTSRequest) (w : World) (e : exn) :
  fst (synthesize E request w) = Raise e ->
  (forallb PyStr.isspace (text request) = true
   /\ e = HTTPException 400 (u "Text is required"))
  \/ (forallb PyStr.isspace (text request) = false
      /\ exists cause,
           fst (choose_synthesis E request w) = Raise cause
           /\ if is_Exception cause
              then e = HTTPException 500
                         (u "Synthesis failed: " ++ exn_str E cause)
              else e = cause).
Proof.
  intros Hraise.
  destruct (forallb PyStr.isspace (text request)) eqn:Htext.
  - left. split; [reflexivity|].
    unfold synthesize in Hraise.
    rewrite text_missing_spec, Htext in Hraise.
    injection Hraise as <-. reflexivity.
  - right. split; [reflexivity|].
    rewrite synthesize_unfold in Hraise
      by (rewrite text_missing_spec; exact Htext).
    unfold response_of in Hraise.
    destruct (choose_synthesis E request w) as [[[[a r] d]|cause] w'];
      [discriminate|].
    exists cause. split; [reflexivity|].
    destruct (is_Exception cause); injection Hraise as <-; reflexivity.
Qed.

Lemma X4_synthesize_errors_witness :
  let E := Cases.generation_interrupted in
  let w := snd (lifespan_startup E (initial_world ∅)) in
  fst (synthesize E Scenario.hello w) = Raise Cases.interrupt
  /\ forallb PyStr.isspace (text Scenario.hello) = false
  /\ fst (choose_synthesis E Scenario.hello w) = Raise Cases.interrupt.
Proof.
  assert (H : fst (synthesize Cases.generation_interrupted Scenario.hello
                     (snd (lifespan_startup Cases.generation_interrupted
                             (initial_world ∅))))
              = Raise Cases.interrupt)
    by (vm_compute; reflexivity).
  split; [exact H|].
  destruct (X4_synthesize_errors _ _ _ _ H)
    as [[Hb _] | (Hn & cause & Hc & _)].
  - vm_compute in Hb. discriminate.
  - split; [exact Hn|]. vm_compute. reflexivity.
Defined.

(** ** [/clone-voice] *)

(** X5: when the reference path does not exist, [/clone-voice] answers
    404 with "Reference audio not found: " followed by the path, and leaves
    the world as it was: no identifier is drawn. *)
Theorem X5_clone_missing_reference
    (E : Env) (request : VoiceCloneRequest) (w : World) :
  fs w !! reference_audio_path request = None ->
  clone_voice E request w
  = (Raise (HTTPException 404
              (u "Reference audio not found: "
               ++ reference_audio_path request)), w).
Proof.
  intros Hmissing.
  unfold clone_voice, mbind, M_bind, bind, path_exists, gets.
  rewrite bool_decide_eq_false_2; [reflexivity|].
  rewrite Hmissing. intros [b Hb]. discriminate.
Qed.

Lemma X5_clone_missing_reference_witness :
  let w := initial_world ∅ in
  fs w !! reference_audio_path Cases.clone_request = None
  /\ clone_voice Scenario.healthy Cases.clone_request w
     = (Raise (HTTPException 404
                 (u "Reference audio not found: " ++ u "/data/ref.wav")), w).
Proof.
  split; [reflexivity|].
  apply (X5_clone_missing_reference Scenario.healthy Cases.clone_request
           (initial_world ∅)).
  reflexivity.
Defined.

Lemma replace1_length (old c : N) (s : pystr) :
  length (PyStr.replace1 old [c] s) = length s.
Proof.
  induction s as [|d r IH]; simpl; [reflexivity|].
  destruct (d =? old)%N; simpl; rewrite IH; reflexivity.
Qed.

Lemma replace1_removes (old c : N) (s : pystr) :
  c <> old -> ~ In old (PyStr.replace1 old [c] s).
Proof.
  intros Hc. induction s as [|d r IH]; simpl; [tauto|].
  destruct (d =? old)%N eqn:Hd; simpl.
  - intros [H|H]; [congruence | exact (IH H)].
  - apply N.eqb_neq in Hd. intros [H|H]; [congruence | exact (IH H)].
Qed.

(** X6: when the reference path exists, [/clone-voice] answers "pending"
    with the identifier "custom_" + name + "_" + the first eight characters
    of a fresh UUID, where the name is the lower-cased voice name with every
    space replaced by an underscore (so it has no space and the length of
    the voice name's lower-casing); the message ends with the identifier.
    The stub reads nothing and writes nothing: files, globals and engine
    calls are as before. *)
Theorem X6_clone_pending
    (E : Env) (request : VoiceCloneRequest) (w : World) (b : bytes) :
  fs w !! reference_audio_path request = Some b ->
  let name := clone_name_part E (voice_name request) in
  let id := u "custom_" ++ name ++ u "_" ++ take 8 (uuid4 E (clock w)) in
  let after := clone_voice E request w in
  fst after
  = Ok {| clone_status := u "pending";
          voice_id := Some id;
          message :=
            u "Voice cloning not yet implemented. Qwen3-TTS VoiceDesign model required. Stub voice_id: "
            ++ id |}
  /\ ~ In 32%N name
  /\ length name = length (str_lower E (voice_name request))
  /\ snd after = tick w.
Proof.
  intros Hfound. cbv zeta.
  unfold clone_voice, mbind, M_bind, bind, path_exists, gets, ext, ret.
  rewrite bool_decide_eq_true_2 by (rewrite Hfound; eauto).
  simpl. unfold clone_name_part.
  repeat split.
  - apply replace1_removes. discriminate.
  - apply replace1_length.
Qed.

Lemma X6_clone_pending_witness :
  let E := Scenario.healthy in
  let w := initial_world Cases.with_reference in
  fs w !! reference_audio_path Cases.clone_request = Some [Byte.x52]
  /\ fst (clone_voice E Cases.clone_request w)
     = Ok {| clone_status := u "pending";
             voice_id := Some (u "custom_my_voice_00000000");
             message :=
               u "Voice cloning not yet implemented. Qwen3-TTS VoiceDesign model required. Stub voice_id: custom_my_voice_00000000" |}.
Proof.
  split; [vm_compute; reflexivity|].
  exact (proj1 (X6_clone_pending Scenario.healthy Cases.clone_request
                  (initial_world Cases.with_reference) [Byte.x52]
                  ltac:(vm_compute; reflexivity))).
Defined.

(** ** What the routes leave alone *)

Lemma fmap_result_world {A B} (f : A -> B) (m : M A) (w : World) :
  snd (fmap_result f m w) = snd (m w).
Proof. unfold fmap_result. destruct (m w) as [[a|e] w']; reflexivity. Qed.

(** X7: [GET /health], [GET /] and [POST /clone-voice] call no engine,
    touch no file and leave both globals as they are. *)
Theorem X7_other_routes_are_quiet (E : Env) (rq : Request) (w : World) :
  is_synthesize rq = false ->
  let w' := snd (handle E rq w) in
  trace w' = trace w /\ fs w' = fs w
  /\ model w' = model w /\ MODEL_LOADED w' = MODEL_LOADED w.
Proof.
  intros Hrq. cbv zeta. unfold handle.
  destruct rq as [|r|r|]; try discriminate; rewrite fmap_result_world.
  - rewrite health_check_answer. repeat split.
  - unfold clone_voice, mbind, M_bind, bind, path_exists, gets, ext, ret.
    destruct (bool_decide _); repeat split.
  - repeat split.
Qed.

Lemma X7_other_routes_are_quiet_witness :
  let E := Scenario.healthy in
  let w := Scenario.started E in
  is_synthesize (PostCloneVoice Cases.clone_request) = false
  /\ trace (snd (handle E (PostCloneVoice Cases.clone_request) w)) = trace w.
Proof.
  split; [reflexivity|].
  exact (proj1 (X7_other_routes_are_quiet Scenario.healthy
                  (PostCloneVoice Cases.clone_request)
                  (Scenario.started Scenario.healthy) eq_refl)).
Defined.

(** The serving loop keeps every file but the two temporary ones. *)
Lemma serve_keeps_file
    (E : Env) (p : pystr) (rqs : list Request) (w : World) :
  p <> qwen_temp_file -> p <> system_temp_file ->
  keeps_file p w (serve E rqs w).
Proof.
  intros Hq Hs.
  apply (respects_serve (keeps_file p) (fun _ => True) (fun q => q <> p));
    unfold keeps_file; simpl; auto.
  - intros; congruence.
  - intros w0 q b Hne. apply lookup_insert_ne. exact Hne.
  - intros w0 q Hne. apply lookup_delete_ne. exact Hne.
Qed.

(** X8: no sequence of requests creates, changes or removes any file
    other than [/tmp/qwen_tts_output.wav] and [/tmp/qwen_tts_temp.wav]. *)
Theorem X8_only_temp_files_touched
    (E : Env) (p : pystr) (rqs : list Request) (w : World) :
  p <> qwen_temp_file -> p <> system_temp_file ->
  fs (serve E rqs w) !! p = fs w !! p.
Proof.
  intros Hq Hs. exact (serve_keeps_file E p rqs w Hq Hs).
Qed.

Lemma X8_only_temp_files_touched_witness :
  let E := Scenario.healthy in
  let w := snd (lifespan_startup E (initial_world Cases.with_reference)) in
  u "/data/ref.wav" <> qwen_temp_file
  /\ u "/data/ref.wav" <> system_temp_file
  /\ fs (serve E [PostSynthesize Scenario.hello; GetHealth] w)
     !! u "/data/ref.wav"
     = fs w !! u "/data/ref.wav".
Proof.
  assert (H1 : u "/data/ref.wav" <> qwen_temp_file)
    by (intros H; vm_compute in H; discriminate).
  assert (H2 : u "/data/ref.wav" <> system_temp_file)
    by (intros H; vm_compute in H; discriminate).
  split; [exact H1|]. split; [exact H2|].
  exact (X8_only_temp_files_touched Scenario.healthy (u "/data/ref.wav")
           [PostSynthesize Scenario.hello; GetHealth] _ H1 H2).
Defined.

(** ** The system voice backend *)

Lemma chosen_voice_lookup (voices : list pystr) (voice : pystr) :
  chosen_voice voices voice = voices !! voice_index voice.
Proof.
  unfold chosen_voice.
  destruct (voice_index voice <? length voices)%nat eqn:Hlt.
  - destruct voices as [|v r]; [simpl in Hlt; discriminate|].
    rewrite bool_decide_eq_false_2 by discriminate. reflexivity.
  - rewrite andb_false_r. symmetry. apply lookup_ge_None_2.
    apply Nat.ltb_ge in Hlt. exact Hlt.
Qed.

(** Up to rendering, the system backend only talks to the engine. *)
Lemma system_tts_setup
    (E : Env) (text voice : pystr) (speed : spec_float) (w : World)
    (voices : list pystr) (rate : Z) :
  HAS_PYTTSX3 E = true ->
  pyttsx3_init E (clock w) = Ok voices ->
  PyNum.py_int (PyFloat.mul (PyFloat.of_int base_rate) speed) = Ok rate ->
  let chosen := chosen_voice voices voice in
  synthesize_with_system_tts E text voice speed w
  = (write_via system_temp_file (fun n => run_and_wait E n text chosen rate)
     ≫= fun _ => read_system_output E system_temp_file)
      (before_rendering (setup_events text chosen rate) w).
Proof.
  intros Has Hinit Hrate. cbv zeta.
  unfold synthesize_with_system_tts. rewrite Has.
  change (negb true) with false. cbv iota beta zeta.
  rewrite step_emit, step_ext. simpl clock. rewrite Hinit, step_lift_ok.
  fold (voice_index voice). fold (chosen_voice voices voice).
  rewrite Hrate.
  unfold setup_events, before_rendering.
  destruct (chosen_voice voices voice) as [v|]; simpl from_option.
  - rewrite step_emit, step_lift_ok, !step_emit.
    f_equal. unfold add_event, tick. simpl. rewrite <- !app_assoc.
    reflexivity.
  - rewrite step_ret, step_lift_ok, !step_emit.
    f_equal. unfold add_event, tick. simpl. rewrite <- !app_assoc.
    reflexivity.
Qed.

(** X9: what the engine renders is what the system backend returns.  When
    [runAndWait] writes [b] and returns, and the [wave] module reads
    [frames] frames at [hz] Hz from it, the result is [b] itself, the rate
    [hz] and the duration [int(frames / float(hz) * 1000)]; the engine was
    set up, told the text verbatim and run once, and the temporary file is
    gone. *)
Theorem X9_system_round_trip
    (E : Env) (text voice : pystr) (speed : spec_float) (w : World)
    (voices : list pystr) (rate frames hz d : Z) (b : bytes) :
  HAS_PYTTSX3 E = true ->
  pyttsx3_init E (clock w) = Ok voices ->
  PyNum.py_int (PyFloat.mul (PyFloat.of_int base_rate) speed) = Ok rate ->
  run_and_wait E (S (clock w)) text (chosen_voice voices voice) rate
  = {| written := Some b; raised := None |} ->
  wave_open E b = Ok (frames, hz) ->
  system_duration_ms frames hz = Ok d ->
  let after := synthesize_with_system_tts E text voice speed w in
  fst after = Ok (b, hz, d)
  /\ trace (snd after)
     = trace w ++ setup_events text (chosen_voice voices voice) rate
  /\ fs (snd after) !! system_temp_file = None.
Proof.
  intros Has Hinit Hrate Hrun Hwave Hdur. cbv zeta.
  rewrite (system_tts_setup E text voice speed w voices rate Has Hinit Hrate).
  unfold write_via, read_system_output, try_except, mbind, M_bind, bind,
    ext, when, modify, read_file, os_remove, lift, ret, before_rendering.
  simpl. rewrite Hrun. simpl.
  repeat first
    [ rewrite lookup_insert_eq | rewrite Hwave | rewrite Hdur
    | progress cbn [fs set_fs tick fst snd] ].
  repeat split. apply lookup_delete_eq.
Qed.

Lemma X9_system_round_trip_witness :
  let E := Scenario.healthy in
  let after :=
    synthesize_with_system_tts E (u "Hi") (u "marlin") (PyFloat.of_int 1)
      (initial_world ∅) in
  HAS_PYTTSX3 E = true
  /\ fst after = Ok ([Byte.x52; Byte.x49], 22050, 1000)
  /\ fs (snd after) !! system_temp_file = None.
Proof.
  split; [reflexivity|].
  pose proof (X9_system_round_trip Scenario.healthy (u "Hi") (u "marlin")
                (PyFloat.of_int 1) (initial_world ∅)
                [u "voice.zero"; u "voice.one"] 200 22050 22050 1000
                [Byte.x52; Byte.x49]
                eq_refl eq_refl ltac:(vm_compute; reflexivity)
                ltac:(vm_compute; reflexivity) eq_refl
                ltac:(vm_compute; reflexivity)) as (H1 & _ & H3).
  split; [exact H1 | exact H3].
Defined.

(** X10: whenever [runAndWait] returns normally, the temporary file of
    the system backend is gone when the backend is done, whether the
    read-back succeeded or raised an exception that derives from
    [Exception].  An exception outside [Exception] passes the clean-up of
    line 193 by: the file is then as [runAndWait] left it. *)
Theorem X10_system_cleans_up
    (E : Env) (text voice : pystr) (speed : spec_float) (w : World)
    (voices : list pystr) (rate : Z) :
  HAS_PYTTSX3 E = true ->
  pyttsx3_init E (clock w) = Ok voices ->
  PyNum.py_int (PyFloat.mul (PyFloat.of_int base_rate) speed) = Ok rate ->
  raised (run_and_wait E (S (clock w)) text (chosen_voice voices voice) rate)
  = None ->
  let after := synthesize_with_system_tts E text voice speed w in
  match fst after with
  | Ok _ => fs (snd after) !! system_temp_file = None
  | Raise e =>
      if is_Exception e then fs (snd after) !! system_temp_file = None
      else fs (snd after) !! system_temp_file
           = match written (run_and_wait E (S (clock w)) text
                              (chosen_voice voices voice) rate) with
             | Some b => Some b
             | None => fs w !! system_temp_file
             end
  end.
Proof.
  intros Has Hinit Hrate Hrun. cbv zeta.
  rewrite (system_tts_setup E text voice speed w voices rate Has Hinit Hrate).
  unfold write_via, mbind, M_bind, bind, ext, when, modify.
  simpl. rewrite Hrun.
  destruct (written (run_and_wait E (S (clock w)) text
                       (chosen_voice voices voice) rate)) as [b|]; simpl.
  - match goal with
    | |- context [read_system_output E system_temp_file ?w1] =>
        pose proof (read_system_output_cleans E system_temp_file w1) as Hc;
        cbv zeta in Hc;
        destruct (read_system_output E system_temp_file w1) as [[r|e] w2]
    end; simpl in *; [exact Hc|].
    destruct (is_Exception e); [exact Hc|].
    rewrite Hc. apply lookup_insert_eq.
  - match goal with
    | |- context [read_system_output E system_temp_file ?w1] =>
        pose proof (read_system_output_cleans E system_temp_file w1) as Hc;
        cbv zeta in Hc;
        destruct (read_system_output E system_temp_file w1) as [[r|e] w2]
    end; simpl in *; [exact Hc|].
    destruct (is_Exception e); [exact Hc|].
    rewrite Hc. reflexivity.
Qed.

Lemma X10_system_cleans_up_witness :
  let E := Scenario.healthy in
  HAS_PYTTSX3 E = true
  /\ fs (snd (synthesize_with_system_tts E (u "Hi") (u "marlin")
                (PyFloat.of_int 1) (initial_world ∅)))
     !! system_temp_file = None.
Proof.
  split; [reflexivity|].
  pose proof (X10_system_cleans_up Scenario.healthy (u "Hi") (u "marlin")
                (PyFloat.of_int 1) (initial_world ∅)
                [u "voice.zero"; u "voice.one"] 200
                eq_refl eq_refl eq_refl eq_refl) as H.
  vm_compute in H. vm_compute. exact H.
Defined.

(** X11: the clean-up covers the read-back only.  When [runAndWait]
    itself raises after writing, the exception leaves the backend as it is
    and what was written stays at [/tmp/qwen_tts_temp.wav]. *)
Theorem X11_render_failure_leaves_file
    (E : Env) (text voice : pystr) (speed : spec_float) (w : World)
    (voices : list pystr) (rate : Z) (b : bytes) (e : exn) :
  HAS_PYTTSX3 E = true ->
  pyttsx3_init E (clock w) = Ok voices ->
  PyNum.py_int (PyFloat.mul (PyFloat.of_int base_rate) speed) = Ok rate ->
  run_and_wait E (S (clock w)) text (chosen_voice voices voice) rate
  = {| written := Some b; raised := Some e |} ->
  let after := synthesize_with_system_tts E text voice speed w in
  fst after = Raise e
  /\ fs (snd after) !! system_temp_file = Some b.
Proof.
  intros Has Hinit Hrate Hrun. cbv zeta.
  rewrite (system_tts_setup E text voice speed w voices rate Has Hinit Hrate).
  unfold write_via, mbind, M_bind, bind, ext, when, modify, raise,
    before_rendering.
  simpl. rewrite Hrun. simpl. split; [reflexivity|].
  apply lookup_insert_eq.
Qed.

Lemma X11_render_failure_leaves_file_witness :
  let E := Cases.render_fails in
  let after :=
    synthesize_with_system_tts E (u "Hi") (u "marlin") (PyFloat.of_int 1)
      (initial_world ∅) in
  HAS_PYTTSX3 E = true
  /\ fst after = Raise Scenario.some_exn
  /\ fs (snd after) !! system_temp_file = Some [Byte.x52].
Proof.
  split; [reflexivity|].
  apply (X11_render_failure_leaves_file Cases.render_fails (u "Hi")
           (u "marlin") (PyFloat.of_int 1) (initial_world ∅)
           [u "voice.zero"; u "voice.one"] 200 [Byte.x52] Scenario.some_exn).
  - reflexivity.
  - reflexivity.
  - vm_compute. reflexivity.
  - reflexivity.
Defined.

(** X12: the voice is looked up in [VOICE_MAP] ("default" and "marrvin"
    give 0, "marlin" 1, "daniel" 2, any other name 0) and the engine's voice
    at that index is selected; when the engine has no voice at that index,
    none is selected and synthesis goes on with the engine's own voice. *)
Theorem X12_voice_selection
    (E : Env) (text voice : pystr) (speed : spec_float) (w : World)
    (voices : list pystr) (rate : Z) :
  HAS_PYTTSX3 E = true ->
  pyttsx3_init E (clock w) = Ok voices ->
  PyNum.py_int (PyFloat.mul (PyFloat.of_int base_rate) speed) = Ok rate ->
  let after := synthesize_with_system_tts E text voice speed w in
  (voice_index (u "default"), voice_index (u "marrvin"),
   voice_index (u "marlin"), voice_index (u "daniel"))
  = (0, 0, 1, 2)%nat
  /\ (VOICE_MAP !! voice = None -> voice_index voice = 0%nat)
  /\ trace (snd after)
     = trace w ++ [EngineInit]
       ++ match voices !! voice_index voice with
          | Some v => [EngineSetVoice v]
          | None => []
          end
       ++ [EngineSetRate rate; EngineSaveToFile text system_temp_file;
           EngineRunAndWait].
Proof.
  intros Has Hinit Hrate. cbv zeta.
  split; [vm_compute; reflexivity|].
  split; [intros Hv; unfold voice_index; rewrite Hv; reflexivity|].
  rewrite (system_tts_setup E text voice speed w voices rate Has Hinit Hrate).
  rewrite system_tail_quiet. unfold before_rendering, setup_events. simpl.
  rewrite chosen_voice_lookup. reflexivity.
Qed.

Lemma X12_voice_selection_witness :
  let E := Scenario.healthy in
  HAS_PYTTSX3 E = true
  /\ Cases.two_voices !! voice_index (u "daniel") = None
  /\ trace (snd (synthesize_with_system_tts E (u "Hi") (u "daniel")
                   (PyFloat.of_int 1) (initial_world ∅)))
     = [EngineInit; EngineSetRate 200;
        EngineSaveToFile (u "Hi") system_temp_file; EngineRunAndWait].
Proof.
  split; [reflexivity|]. split; [vm_compute; reflexivity|].
  pose proof (X12_voice_selection Scenario.healthy (u "Hi") (u "daniel")
                (PyFloat.of_int 1) (initial_world ∅) Cases.two_voices 200
                eq_refl eq_refl ltac:(vm_compute; reflexivity))
    as (_ & _ & H).
  assert (Hnone : Cases.two_voices !! voice_index (u "daniel") = None)
    by (vm_compute; reflexivity).
  rewrite Hnone in H. exact H.
Defined.

(** ** The neural backend *)

Lemma qwen_body_split
    (E : Env) (m : Qwen3TTSModel) (text voice prosody : pystr) :
  qwen_body E m text voice prosody
  = (qwen_audio_array E m text voice prosody
     ≫= fun '(audio_array, sample_rate) =>
          qwen_write_out E audio_array sample_rate).
Proof. reflexivity. Qed.

(** Measuring and writing out call no engine and touch one file. *)
Lemma qwen_write_out_quiet
    (E : Env) (arr : Np.ndarray) (hz : Z) (w : World) :
  trace (snd (qwen_write_out E arr hz w)) = trace w
  /\ forall p, p <> qwen_temp_file ->
               fs (snd (qwen_write_out E arr hz w)) !! p = fs w !! p.
Proof.
  split.
  - change (same_trace w (snd (qwen_write_out E arr hz w))).
    generalize w.
    change (respects same_trace (qwen_write_out E arr hz)).
    unfold qwen_write_out.
    apply (respects_bind same_trace); try relation_side.
    + apply respects_lift; relation_side.
    + intros n. apply (respects_bind same_trace); try relation_side.
      * apply respects_lift; relation_side.
      * intros d. cbv zeta.
        apply (respects_bind same_trace); try relation_side.
        -- apply (respects_write_via same_trace (fun _ => True));
             try relation_side.
        -- intros _. apply (respects_bind same_trace); try relation_side.
           ++ apply respects_read_file; relation_side.
           ++ intros b. apply (respects_bind same_trace); try relation_side.
              ** apply (respects_os_remove same_trace (fun _ => True));
                   try relation_side.
              ** intros _. apply respects_ret; relation_side.
  - intros p Hp.
    assert (Hrefl : forall w0, keeps_file p w0 w0) by reflexivity.
    assert (Htrans : forall w1 w2 w3,
               keeps_file p w1 w2 -> keeps_file p w2 w3 -> keeps_file p w1 w3)
      by (unfold keeps_file; intros; congruence).
    assert (Htick : forall w0, keeps_file p w0 (tick w0)) by reflexivity.
    assert (Hins : forall w0 q b, q <> p ->
               keeps_file p w0 (set_fs (<[q := b]> (fs w0)) w0))
      by (intros w0 q b Hq; apply lookup_insert_ne; exact Hq).
    assert (Hdel : forall w0 q, q <> p ->
               keeps_file p w0 (set_fs (delete q (fs w0)) w0))
      by (intros w0 q Hq; apply lookup_delete_ne; exact Hq).
    assert (Hq : qwen_temp_file <> p) by congruence.
    change (keeps_file p w (snd (qwen_write_out E arr hz w))).
    generalize w.
    change (respects (keeps_file p) (qwen_write_out E arr hz)).
    unfold qwen_write_out.
    apply (respects_bind (keeps_file p));
      [assumption | assumption | intros n].
    apply (respects_bind (keeps_file p));
      [assumption | assumption | intros d; cbv zeta].
    apply (respects_bind (keeps_file p));
      [assumption
      |apply (respects_write_via (keeps_file p) (fun q => q <> p));
         assumption
      |intros _].
    apply (respects_bind (keeps_file p));
      [assumption
      |apply (respects_read_file (keeps_file p)); assumption
      |intros b].
    apply (respects_bind (keeps_file p));
      [assumption
      |apply (respects_os_remove (keeps_file p) (fun q => q <> p));
         assumption
      |intros _].
    exact Hrefl.
Qed.

Lemma qwen_generate_calls_once
    (m : Qwen3TTSModel) (text voice prosody : pystr) (w : World) :
  can_generate m = true ->
  exists ev, is_engine_event ev = false
             /\ snd (qwen_generate m text voice prosody w)
                = tick (add_event ev w).
Proof.
  intros Hcan. unfold qwen_generate, can_generate in *.
  destruct (generate_voice_design m) as [gvd|].
  - eexists. split; [|rewrite step_emit, step_ext].
    2: { unfold lift. reflexivity. }
    reflexivity.
  - destruct (generate m) as [g|]; [|discriminate].
    eexists. split; [|rewrite step_emit, step_ext].
    2: { unfold lift. reflexivity. }
    reflexivity.
Qed.

Lemma qwen_audio_array_world
    (E : Env) (m : Qwen3TTSModel) (text voice prosody : pystr) (w : World) :
  snd (qwen_audio_array E m text voice prosody w)
  = snd (qwen_generate m text voice prosody w).
Proof.
  unfold qwen_audio_array, mbind, M_bind, bind, lift.
  destruct (qwen_generate m text voice prosody w) as [[[wavs hz]|e] w1];
    [|reflexivity].
  simpl. destruct (if is_tensor wavs then _ else _); reflexivity.
Qed.

Lemma synthesize_with_qwen_loaded
    (E : Env) (text voice prosody : pystr) (speed : spec_float)
    (w : World) (m : Qwen3TTSModel) :
  model w = Some m ->
  synthesize_with_qwen E text voice prosody speed w
  = try_except (qwen_body E m text voice prosody)
      (fun _ => synthesize_with_system_tts E text voice speed) w.
Proof.
  intros Hm. unfold synthesize_with_qwen, mbind, M_bind, bind, gets.
  rewrite Hm. reflexivity.
Qed.

(** X13: when generation, measuring and writing all succeed, the neural
    backend returns the bytes that [wavfile.write] wrote, the model's sample
    rate and [int(len / rate * 1000)]; its temporary file is gone, no other
    file is touched, and the system engine is not called. *)
Theorem X13_neural_success
    (E : Env) (text voice prosody : pystr) (speed : spec_float)
    (w w1 : World) (m : Qwen3TTSModel) (arr : Np.ndarray) (hz n d : Z)
    (b : bytes) :
  model w = Some m ->
  qwen_audio_array E m text voice prosody w = (Ok (arr, hz), w1) ->
  Np.len arr = Ok n ->
  qwen_duration_ms n hz = Ok d ->
  wavfile_write E (clock w1) hz arr = {| written := Some b; raised := None |} ->
  let after := synthesize_with_qwen E text voice prosody speed w in
  fst after = Ok (b, hz, d)
  /\ fs (snd after) !! qwen_temp_file = None
  /\ (forall p, p <> qwen_temp_file -> fs (snd after) !! p = fs w1 !! p)
  /\ trace (snd after) = trace w1.
Proof.
  intros Hm Harr Hlen Hdur Hwrite. cbv zeta.
  destruct (qwen_write_out_quiet E arr hz w1) as [Htrace Hfiles].
  assert (Hrun : qwen_write_out E arr hz w1
                 = (Ok (b, hz, d),
                    set_fs (delete qwen_temp_file
                              (<[qwen_temp_file := b]> (fs w1))) (tick w1))).
  { unfold qwen_write_out, write_via, mbind, M_bind, bind, lift, ext, when,
      modify, read_file, os_remove, ret.
    rewrite Hlen, Hdur. simpl. rewrite Hwrite. simpl.
    repeat first
      [ rewrite lookup_insert_eq | progress cbn [fs set_fs tick fst snd] ].
    reflexivity. }
  assert (Hsyn : synthesize_with_qwen E text voice prosody speed w
                 = qwen_write_out E arr hz w1).
  { rewrite (synthesize_with_qwen_loaded E _ _ _ _ _ m Hm).
    unfold try_except. rewrite qwen_body_split.
    unfold mbind, M_bind, bind. rewrite Harr.
    destruct (qwen_write_out E arr hz w1) as [[r|e] w2]; [reflexivity|].
    discriminate. }
  rewrite Hsyn. rewrite Hrun in *. simpl in *.
  repeat split; try assumption. apply lookup_delete_eq.
Qed.

Lemma X13_neural_success_witness :
  let E := Scenario.healthy in
  let w := Scenario.started E in
  let after :=
    synthesize_with_qwen E (text Scenario.hello) (voice Scenario.hello)
      (prosody_instruction Scenario.hello) (speed Scenario.hello) w in
  model w = Some (Scenario.design_model Scenario.two_samples 3)
  /\ fst after = Ok ([Byte.x52], 3, 666)
  /\ fs (snd after) !! qwen_temp_file = None.
Proof.
  split; [reflexivity|].
  pose proof (X13_neural_success Scenario.healthy
                (text Scenario.hello) (voice Scenario.hello)
                (prosody_instruction Scenario.hello) (speed Scenario.hello)
                (Scenario.started Scenario.healthy) Cases.generated_world
                (Scenario.design_model Scenario.two_samples 3)
                (Np.IntArray Np.int16 [2%nat] [0; 0]) 3 2 666 [Byte.x52]
                eq_refl ltac:(vm_compute; reflexivity) eq_refl
                ltac:(vm_compute; reflexivity) eq_refl) as (H1 & H2 & _).
  split; [exact H1 | exact H2].
Defined.

(** X14: a model object that has neither [generate_voice_design] nor
    [generate] is served exactly as if there were no model: the system
    voice backend runs in the unchanged world. *)
Theorem X14_methodless_model
    (E : Env) (text voice prosody : pystr) (speed : spec_float)
    (w : World) (m : Qwen3TTSModel) :
  model w = Some m ->
  can_generate m = false ->
  synthesize_with_qwen E text voice prosody speed w
  = synthesize_with_system_tts E text voice speed w.
Proof.
  intros Hm Hcan.
  rewrite (synthesize_with_qwen_loaded E _ _ _ _ _ m Hm).
  unfold try_except, qwen_body, qwen_audio_array, qwen_generate,
    can_generate, mbind, M_bind, bind, raise in *.
  destruct (generate_voice_design m); [discriminate|].
  destruct (generate m); [discriminate|]. reflexivity.
Qed.

Lemma X14_methodless_model_witness :
  let E := Cases.methodless in
  let w := Scenario.started E in
  model w = Some Cases.methodless_model
  /\ can_generate Cases.methodless_model = false
  /\ synthesize_with_qwen E (u "Hi") (u "default") (u "speak normally")
       (PyFloat.of_int 1) w
     = synthesize_with_system_tts E (u "Hi") (u "default")
         (PyFloat.of_int 1) w.
Proof.
  split; [reflexivity|]. split; [reflexivity|].
  apply (X14_methodless_model Cases.methodless (u "Hi") (u "default")
           (u "speak normally") (PyFloat.of_int 1)
           (Scenario.started Cases.methodless) Cases.methodless_model);
    reflexivity.
Defined.

(** X15: a model with plain generation only is called with the text,
    "English" and the voice as speaker; the prosody instruction plays no
    part in the call or in its result. *)
Theorem X15_plain_generation
    (m : Qwen3TTSModel) (text voice prosody : pystr) (w : World)
    (g : nat -> pystr -> pystr -> pystr -> result (Wavs * Z)) :
  generate_voice_design m = None ->
  generate m = Some g ->
  qwen_generate m text voice prosody w
  = (g (clock w) text (u "English") voice,
     tick (add_event (CallGenerate text (u "English") voice) w))
  /\ forall other,
       qwen_generate m text voice other w
       = qwen_generate m text voice prosody w.
Proof.
  intros Hgvd Hg. unfold qwen_generate. rewrite Hgvd, Hg. split.
  - rewrite step_emit, step_ext. unfold lift. reflexivity.
  - intros other. reflexivity.
Qed.

Lemma X15_plain_generation_witness :
  let w := initial_world ∅ in
  generate_voice_design Cases.plain_model = None
  /\ trace (snd (qwen_generate Cases.plain_model (u "Hi") (u "default")
                   (u "whisper") w))
     = [CallGenerate (u "Hi") (u "English") (u "default")].
Proof.
  split; [reflexivity|].
  destruct (X15_plain_generation Cases.plain_model (u "Hi") (u "default")
              (u "whisper") (initial_world ∅) _ eq_refl eq_refl) as [H _].
  rewrite H. reflexivity.
Defined.

(** X16: [speed] reaches the system voice only.  When the neural [try]
    body succeeds, [synthesize_with_qwen] returns its result whatever the
    speed is. *)
Theorem X16_speed_ignored_on_success
    (E : Env) (text voice prosody : pystr) (w w' : World)
    (m : Qwen3TTSModel) (r : bytes * Z * Z) :
  model w = Some m ->
  qwen_body E m text voice prosody w = (Ok r, w') ->
  forall speed, synthesize_with_qwen E text voice prosody speed w = (Ok r, w').
Proof.
  intros Hm Hbody speed.
  rewrite (synthesize_with_qwen_loaded E _ _ _ _ _ m Hm).
  unfold try_except. rewrite Hbody. reflexivity.
Qed.

Lemma X16_speed_ignored_on_success_witness :
  let E := Scenario.healthy in
  let w := Scenario.started E in
  model w = Some (Scenario.design_model Scenario.two_samples 3)
  /\ synthesize_with_qwen E (text Scenario.hello) (voice Scenario.hello)
       (prosody_instruction Scenario.hello) Scenario.speed_65_128 w
     = synthesize_with_qwen E (text Scenario.hello) (voice Scenario.hello)
         (prosody_instruction Scenario.hello) (PyFloat.of_int 2) w.
Proof.
  split; [reflexivity|].
  assert (Hbody : qwen_body Scenario.healthy
                    (Scenario.design_model Scenario.two_samples 3)
                    (text Scenario.hello) (voice Scenario.hello)
                    (prosody_instruction Scenario.hello)
                    (Scenario.started Scenario.healthy)
                  = (Ok ([Byte.x52], 3, 666), Scenario.healthy_world))
    by (vm_compute; reflexivity).
  rewrite (X16_speed_ignored_on_success Scenario.healthy _ _ _
             (Scenario.started Scenario.healthy) _
             (Scenario.design_model Scenario.two_samples 3) _
             eq_refl Hbody Scenario.speed_65_128).
  rewrite (X16_speed_ignored_on_success Scenario.healthy _ _ _
             (Scenario.started Scenario.healthy) _
             (Scenario.design_model Scenario.two_samples 3) _
             eq_refl Hbody (PyFloat.of_int 2)).
  reflexivity.
Defined.

Lemma qwen_body_trace
    (E : Env) (m : Qwen3TTSModel) (text voice prosody : pystr) (w : World) :
  trace (snd (qwen_body E m text voice prosody w))
  = trace (snd (qwen_generate m text voice prosody w)).
Proof.
  rewrite <- (qwen_audio_array_world E).
  rewrite qwen_body_split. unfold mbind, M_bind, bind.
  destruct (qwen_audio_array E m text voice prosody w)
    as [[[arr hz]|e] w1]; [|reflexivity].
  simpl. apply qwen_write_out_quiet.
Qed.

(** X17: with a loaded model that has a generation method, every request
    whose text is not blank calls the model first, exactly once; whatever
    else is called afterwards is the system engine. *)
Theorem X17_model_called_first_once
    (E : Env) (request : TTSRequest) (w : World) (m : Qwen3TTSModel) :
  MODEL_LOADED w = true ->
  model w = Some m ->
  can_generate m = true ->
  forallb PyStr.isspace (text request) = false ->
  exists ev rest,
    trace (snd (synthesize E request w)) = trace w ++ ev :: rest
    /\ is_engine_event ev = false
    /\ forallb is_engine_event rest = true.
Proof.
  intros Hflag Hm Hcan Htext.
  rewrite synthesize_unfold by (rewrite text_missing_spec; exact Htext).
  assert (Hsnd : forall x, snd (response_of E request x) = snd x).
  { intros [[[[a r] d]|e] w']; simpl; [|destruct (is_Exception e)];
      reflexivity. }
  rewrite Hsnd.
  unfold choose_synthesis, mbind, M_bind, bind, gets. rewrite Hflag.
  rewrite (synthesize_with_qwen_loaded E _ _ _ _ _ m Hm).
  destruct (qwen_generate_calls_once m (text request) (voice request)
              (prosody_instruction request) w Hcan) as (ev & Hev & Hgen).
  pose proof (qwen_body_trace E m (text request) (voice request)
                (prosody_instruction request) w) as Hbody.
  rewrite Hgen in Hbody. simpl in Hbody.
  exists ev. unfold try_except.
  destruct (qwen_body E m (text request) (voice request)
              (prosody_instruction request) w) as [[r|e] w1]; simpl in *.
  - exists []. rewrite Hbody. auto.
  - destruct (is_Exception e); simpl.
    + destruct (system_tts_engine_only E (text request) (voice request)
                  (speed request) w1) as (evs & Ht & Hall).
      exists evs. rewrite Ht, Hbody, <- app_assoc. auto.
    + exists []. rewrite Hbody. auto.
Qed.

Lemma X17_model_called_first_once_witness :
  let E := Scenario.generation_fails in
  let w := Scenario.started E in
  MODEL_LOADED w = true
  /\ exists ev rest,
       trace (snd (synthesize E Scenario.hello w)) = trace w ++ ev :: rest
       /\ is_engine_event ev = false
       /\ forallb is_engine_event rest = true.
Proof.
  split; [reflexivity|].
  apply (X17_model_called_first_once Scenario.generation_fails Scenario.hello
           (Scenario.started Scenario.generation_fails)
           (Scenario.design_model (Raise Scenario.some_exn) 3));
    reflexivity.
Defined.

(** X18: when the model reports a sample rate of zero, the division of
    line 252 raises before anything is written, and the request is served
    by the system voice from the world generation left. *)
Theorem X18_zero_rate_falls_back
    (E : Env) (text voice prosody : pystr) (speed : spec_float)
    (w w1 : World) (m : Qwen3TTSModel) (arr : Np.ndarray) (n : Z) :
  model w = Some m ->
  qwen_audio_array E m text voice prosody w = (Ok (arr, 0), w1) ->
  Np.len arr = Ok n ->
  fs w1 = fs w
  /\ synthesize_with_qwen E text voice prosody speed w
     = synthesize_with_system_tts E text voice speed w1.
Proof.
  intros Hm Harr Hlen. split.
  - pose proof (qwen_audio_array_world E m text voice prosody w) as Hw.
    rewrite Harr in Hw. simpl in Hw. rewrite Hw.
    unfold qwen_generate.
    destruct (generate_voice_design m) as [gvd|].
    + rewrite step_emit, step_ext. unfold lift.
      destruct (gvd _ _ _ _ _); reflexivity.
    + destruct (generate m) as [g|]; [|reflexivity].
      rewrite step_emit, step_ext. unfold lift.
      destruct (g _ _ _ _); reflexivity.
  - rewrite (synthesize_with_qwen_loaded E _ _ _ _ _ m Hm).
    unfold try_except. rewrite qwen_body_split.
    unfold mbind at 1. unfold M_bind, bind. rewrite Harr.
    unfold qwen_write_out, mbind, M_bind, bind, lift.
    rewrite Hlen. reflexivity.
Qed.

Lemma X18_zero_rate_falls_back_witness :
  let E := Cases.zero_rate in
  let w := Scenario.started E in
  model w = Some (Scenario.design_model Scenario.two_samples 0)
  /\ synthesize_with_qwen E (text Scenario.hello) (voice Scenario.hello)
       (prosody_instruction Scenario.hello) (speed Scenario.hello) w
     = synthesize_with_system_tts E (text Scenario.hello)
         (voice Scenario.hello) (speed Scenario.hello)
         Cases.zero_rate_world.
Proof.
  split; [reflexivity|].
  exact (proj2 (X18_zero_rate_falls_back Cases.zero_rate
                  (text Scenario.hello) (voice Scenario.hello)
                  (prosody_instruction Scenario.hello) (speed Scenario.hello)
                  (Scenario.started Cases.zero_rate) Cases.zero_rate_world
                  (Scenario.design_model Scenario.two_samples 0)
                  (Np.IntArray Np.int16 [2%nat] [0; 0]) 2
                  eq_refl ltac:(vm_compute; reflexivity) eq_refl)).
Defined.

Lemma convert_to_int16_shape (E : Env) (a : Np.ndarray) :
  Np.shape_of (convert_to_int16 E a) = Np.shape_of a.
Proof. destruct a as [[| |] s d|t s d]; reflexivity. Qed.

Lemma squeeze_all_ones (a : Np.ndarray) :
  Forall (fun n => n = 1%nat) (Np.shape_of a) ->
  Np.shape_of (Np.squeeze a) = [].
Proof.
  assert (H : forall s : list nat,
             Forall (fun n => n = 1%nat) s ->
             filter (fun n => n <> 1%nat) s = []).
  { induction 1 as [|n s Hn _ IH]; [reflexivity|].
    rewrite filter_cons_False by (intros Hne; exact (Hne Hn)). exact IH. }
  destruct a as [f s d|t s d]; simpl; exact (H s).
Qed.

(** X19: when the model's output has more than one axis and every axis
    has length one (a single sample), squeezing leaves an array without
    length: [len] raises, nothing is written, and the request is served by
    the system voice. *)
Theorem X19_single_sample_falls_back
    (E : Env) (text voice prosody : pystr) (speed : spec_float)
    (w w1 : World) (m : Qwen3TTSModel) (wavs : Wavs) (hz : Z)
    (a : Np.ndarray) :
  model w = Some m ->
  qwen_generate m text voice prosody w = (Ok (wavs, hz), w1) ->
  as_array wavs = Ok a ->
  (1 < Np.ndim a)%nat ->
  Forall (fun n => n = 1%nat) (Np.shape_of a) ->
  synthesize_with_qwen E text voice prosody speed w
  = synthesize_with_system_tts E text voice speed w1.
Proof.
  intros Hm Hgen Harr Hdim Hones.
  rewrite (synthesize_with_qwen_loaded E _ _ _ _ _ m Hm).
  unfold try_except, qwen_body, qwen_audio_array, mbind, M_bind, bind, lift.
  rewrite Hgen. unfold as_array in Harr. rewrite Harr.
  apply Nat.ltb_lt in Hdim. rewrite Hdim. simpl.
  unfold Np.len. rewrite convert_to_int16_shape, squeeze_all_ones by exact Hones.
  reflexivity.
Qed.

Lemma X19_single_sample_falls_back_witness :
  let E := Cases.single_sample_env in
  let w := Scenario.started E in
  (1 < Np.ndim Cases.single_sample)%nat
  /\ synthesize_with_qwen E (text Scenario.hello) (voice Scenario.hello)
       (prosody_instruction Scenario.hello) (speed Scenario.hello) w
     = synthesize_with_system_tts E (text Scenario.hello)
         (voice Scenario.hello) (speed Scenario.hello)
         Cases.single_sample_world.
Proof.
  split; [apply Nat.ltb_lt; reflexivity|].
  apply (X19_single_sample_falls_back Cases.single_sample_env
           (text Scenario.hello) (voice Scenario.hello)
           (prosody_instruction Scenario.hello) (speed Scenario.hello)
           (Scenario.started Cases.single_sample_env)
           Cases.single_sample_world
           (Scenario.design_model (Ok Cases.single_sample) 24000)
           {| is_tensor := false; cpu_numpy := Raise Scenario.some_exn;
              np_array := Ok Cases.single_sample |}
           24000 Cases.single_sample).
  - reflexivity.
  - vm_compute. reflexivity.
  - reflexivity.
  - apply Nat.ltb_lt. reflexivity.
  - repeat constructor.
Defined.

(** ** Conversion to int16 *)

Lemma sfltb_sign_above (x lo hi : spec_float) :
  sign_is true lo -> lo <> S754_nan -> lo <> S754_zero true ->
  sign_is false hi -> hi <> S754_nan -> hi <> S754_zero false ->
  SFltb hi x = true -> SFltb x lo = false.
Proof.
  unfold SFltb, SFcompare.
  destruct lo as [sl|sl| |sl ml el]; simpl; intros Hl; subst;
    try congruence;
    destruct hi as [sh|sh| |sh mh eh]; simpl; intros Hl1 Hl2 Hh; subst;
      try congruence; intros Hh1 Hh2;
    destruct x as [s|[|]| |[|] mx ex]; simpl; try discriminate;
      try reflexivity.
Qed.

Lemma sfltb_nan_r (x : spec_float) : SFltb S754_nan x = false.
Proof. reflexivity. Qed.

(** One float32 sample through lines 249-250. *)
Lemma convert_sample_float32 (E : Env) (x : spec_float) :
  let y := Np.to_int16 (cast_invalid E)
             (Np.scale1 Np.float32 (Np.clip1 Np.float32 x)) in
  (SFltb (Np.const Np.float32 1) x = true -> y = 32767)
  /\ (SFltb x (Np.const Np.float32 (-1)) = true -> y = -32767)
  /\ (x = S754_nan -> y = cast_invalid E S754_nan)
  /\ (PyFloat.is_zero x = true -> y = 0).
Proof.
  cbv zeta. repeat split.
  - intros Habove.
    assert (Hbelow : SFltb x (Np.const Np.float32 (-1)) = false).
    { apply (sfltb_sign_above x _ (Np.const Np.float32 1));
        try exact Habove; vm_compute; congruence. }
    unfold Np.clip1. rewrite Hbelow, Habove.
    destruct x; try reflexivity. discriminate.
  - intros Hbelow. unfold Np.clip1. rewrite Hbelow.
    destruct x; try reflexivity. discriminate.
  - intros ->. reflexivity.
  - intros Hz. destruct x as [s| | |]; try discriminate.
    destruct s; reflexivity.
Qed.

(** X20: a float32 waveform becomes an int16 array of the same shape and
    length; a sample above 1.0 becomes 32767, a sample below -1.0 becomes
    -32767, a zero stays 0, and a NaN becomes whatever the platform's
    conversion stores for NaN. *)
Theorem X20_float32_conversion
    (E : Env) (shape : list nat) (data : list spec_float) :
  exists out,
    convert_to_int16 E (Np.FloatArray Np.float32 shape data)
    = Np.IntArray Np.int16 shape out
    /\ length out = length data
    /\ forall i x,
         data !! i = Some x ->
         (SFltb (Np.const Np.float32 1) x = true -> out !! i = Some 32767)
         /\ (SFltb x (Np.const Np.float32 (-1)) = true
             -> out !! i = Some (-32767))
         /\ (x = S754_nan -> out !! i = Some (cast_invalid E S754_nan))
         /\ (PyFloat.is_zero x = true -> out !! i = Some 0).
Proof.
  eexists. split; [reflexivity|]. split; [apply length_map|].
  intros i x Hx.
  destruct (convert_sample_float32 E x) as (H1 & H2 & H3 & H4).
  assert (Hout : map (fun x0 => Np.to_int16 (cast_invalid E)
                                  (Np.scale1 Np.float32
                                     (Np.clip1 Np.float32 x0))) data !! i
                 = Some (Np.to_int16 (cast_invalid E)
                           (Np.scale1 Np.float32 (Np.clip1 Np.float32 x)))).
  { change (map ?f data) with (f <$> data).
    rewrite list_lookup_fmap, Hx. reflexivity. }
  rewrite Hout.
  repeat split; intros H; f_equal; auto.
Qed.

(** ** A request without a model, end to end *)

(** X21: on a server whose model load failed with an exception that
    derives from [Exception] and that has pyttsx3, a request with a text
    that is not blank, whose rendering and read-back succeed, is answered
    200 with the base64 of the rendered file, the file's own frame rate,
    the duration [int(frames / float(rate) * 1000)] and the request's
    format. *)
Theorem X21_system_voice_end_to_end
    (E : Env) (files : gmap pystr bytes) (request : TTSRequest)
    (voices : list pystr) (rate frames hz d : Z) (b : bytes) (e : exn) :
  from_pretrained E 0 (load_target E (initial_world files)) = Raise e ->
  is_Exception e = true ->
  HAS_PYTTSX3 E = true ->
  forallb PyStr.isspace (text request) = false ->
  let w := snd (lifespan_startup E (initial_world files)) in
  pyttsx3_init E (clock w) = Ok voices ->
  PyNum.py_int (PyFloat.mul (PyFloat.of_int base_rate) (speed request))
  = Ok rate ->
  run_and_wait E (S (clock w)) (text request)
    (chosen_voice voices (voice request)) rate
  = {| written := Some b; raised := None |} ->
  wave_open E b = Ok (frames, hz) ->
  system_duration_ms frames hz = Ok d ->
  fst (synthesize E request w)
  = Ok {| audio_data := b64encode E b;
          duration_ms := d;
          sample_rate := hz;
          format := output_format request |}.
Proof.
  intros Hfail Hexc Has Htext w Hinit Hrate Hrun Hwave Hdur.
  assert (Hnone : model w = None).
  { unfold w, lifespan_startup.
    rewrite (load_failure E (initial_world files) e Hfail Hexc).
    reflexivity. }
  rewrite synthesize_unfold by (rewrite text_missing_spec; exact Htext).
  rewrite choose_without_model by exact Hnone.
  rewrite (system_tts_setup E _ _ _ w voices rate Has Hinit Hrate).
  unfold write_via, read_system_output, try_except, mbind, M_bind, bind,
    ext, when, modify, read_file, os_remove, lift, ret, before_rendering.
  simpl. rewrite Hrun. simpl.
  repeat first
    [ rewrite lookup_insert_eq | rewrite Hwave | rewrite Hdur
    | progress cbn [fs set_fs tick fst snd] ].
  reflexivity.
Qed.

Lemma X21_system_voice_end_to_end_witness :
  let E := Scenario.load_fails in
  let w := snd (lifespan_startup E (initial_world ∅)) in
  HAS_PYTTSX3 E = true
  /\ fst (synthesize E Scenario.hello w)
     = Ok {| audio_data := [82%N; 73%N];
             duration_ms := 1000;
             sample_rate := 22050;
             format := u "wav" |}.
Proof.
  split; [reflexivity|].
  apply (X21_system_voice_end_to_end Scenario.load_fails ∅ Scenario.hello
           [u "voice.zero"; u "voice.one"] 200 22050 22050 1000
           [Byte.x52; Byte.x49] Scenario.some_exn).
  - reflexivity.
  - reflexivity.
  - reflexivity.
  - reflexivity.
  - reflexivity.
  - vm_compute. reflexivity.
  - vm_compute. reflexivity.
  - reflexivity.
  - vm_compute. reflexivity.
Defined.

(** ** The engine rate of accepted speeds

    Line 168 computes [int(base_rate * speed)] in binary64.  The lemmas
    below follow [binary_round_aux] on a product of two 53-bit mantissas:
    one right shift to 53 bits with round-to-nearest-even, and one more bit
    when rounding carried into the 54th. *)

Lemma digits2_pos_bounds (p : positive) :
  2 ^ (Zpos (digits2_pos p) - 1) <= Zpos p < 2 ^ Zpos (digits2_pos p).
Proof.
  induction p as [p IH|p IH|]; simpl digits2_pos.
  - rewrite Pos2Z.inj_succ.
    replace (Z.succ (Zpos (digits2_pos p)) - 1) with (Z.succ (Zpos (digits2_pos p) - 1)) by lia.
    rewrite !Z.pow_succ_r by lia. lia.
  - rewrite Pos2Z.inj_succ.
    replace (Z.succ (Zpos (digits2_pos p)) - 1) with (Z.succ (Zpos (digits2_pos p) - 1)) by lia.
    rewrite !Z.pow_succ_r by lia. lia.
  - simpl. lia.
Qed.

Lemma digits2_pos_unique (p : positive) (k : Z) :
  2 ^ (k - 1) <= Zpos p < 2 ^ k -> Zpos (digits2_pos p) = k.
Proof.
  intros [Hlo Hhi].
  pose proof (digits2_pos_bounds p) as [Dlo Dhi].
  assert (0 < k).
  { destruct (Z_lt_le_dec 0 k) as [|Hk]; [assumption|].
    assert (2 ^ k <= 1).
    { destruct (Z.eq_dec k 0) as [->|]; [simpl; lia|].
      rewrite Z.pow_neg_r by lia. lia. }
    lia. }
  assert (Zpos (digits2_pos p) - 1 < k).
  { apply (Z.pow_lt_mono_r_iff 2); lia. }
  assert (k - 1 < Zpos (digits2_pos p)).
  { apply (Z.pow_lt_mono_r_iff 2); lia. }
  lia.
Qed.

Lemma shr_1_m (r : shr_record) :
  0 <= shr_m r -> shr_m (shr_1 r) = shr_m r / 2.
Proof.
  destruct r as [m b s]. cbn [shr_m]. intros Hm.
  destruct m as [|[p|p|]|p]; cbn [shr_1 shr_m]; try lia.
  - apply Z.div_unique with 0; lia.
  - apply Z.div_unique with 1; lia.
  - apply Z.div_unique with 0; lia.
  - apply Z.div_unique with 1; lia.
Qed.

Lemma iter_shr_1_m (p : positive) (r : shr_record) :
  0 <= shr_m r ->
  shr_m (SpecFloat.iter_pos shr_1 p r) = shr_m r / 2 ^ Zpos p.
Proof.
  revert r. induction p as [p IH|p IH|]; intros r Hr; simpl SpecFloat.iter_pos.
  - assert (H1 : 0 <= shr_m (shr_1 r))
      by (rewrite shr_1_m by lia; apply Z.div_pos; lia).
    assert (H2 : 0 <= shr_m (SpecFloat.iter_pos shr_1 p (shr_1 r)))
      by (rewrite IH by lia; apply Z.div_pos;
          [lia | apply Z.pow_pos_nonneg; lia]).
    assert (E : 2 ^ Zpos p~1 = 2 * (2 ^ Zpos p * 2 ^ Zpos p)).
    { rewrite <- Z.pow_add_r, <- Z.pow_succ_r by lia.
      f_equal. lia. }
    rewrite IH by lia. rewrite IH by lia. rewrite shr_1_m by lia.
    rewrite E.
    rewrite !Z.div_div by (try apply Z.pow_pos_nonneg; lia).
    reflexivity.
  - assert (H2 : 0 <= shr_m (SpecFloat.iter_pos shr_1 p r))
      by (rewrite IH by lia; apply Z.div_pos;
          [lia | apply Z.pow_pos_nonneg; lia]).
    assert (E : 2 ^ Zpos p~0 = 2 ^ Zpos p * 2 ^ Zpos p).
    { rewrite <- Z.pow_add_r by lia. f_equal. lia. }
    rewrite IH by lia. rewrite IH by lia. rewrite E.
    rewrite !Z.div_div by (try apply Z.pow_pos_nonneg; lia).
    reflexivity.
  - rewrite shr_1_m by lia. reflexivity.
Qed.

Lemma shr_1_exact (m : Z) :
  0 <= m -> (2 | m) ->
  shr_1 {| shr_m := m; shr_r := false; shr_s := false |}
  = {| shr_m := m / 2; shr_r := false; shr_s := false |}.
Proof.
  intros Hm [c Hc].
  destruct m as [|[p|p|]|p]; cbn [shr_1 orb]; try lia; f_equal;
    try (apply Z.div_unique with 0; lia).
Qed.

Lemma iter_shr_1_exact (p : positive) (m : Z) :
  0 <= m -> (2 ^ Zpos p | m) ->
  SpecFloat.iter_pos shr_1 p {| shr_m := m; shr_r := false; shr_s := false |}
  = {| shr_m := m / 2 ^ Zpos p; shr_r := false; shr_s := false |}.
Proof.
  revert m. induction p as [p IH|p IH|]; intros m Hm [c Hc]; cbn [SpecFloat.iter_pos].
  - assert (Hpos : 0 < 2 ^ Zpos p) by (apply Z.pow_pos_nonneg; lia).
    assert (E : 2 ^ Zpos p~1 = 2 * (2 ^ Zpos p * 2 ^ Zpos p)).
    { rewrite <- Z.pow_add_r, <- Z.pow_succ_r by lia. f_equal. lia. }
    rewrite E in *.
    assert (H2 : m / 2 = c * 2 ^ Zpos p * 2 ^ Zpos p).
    { symmetry. apply Z.div_unique with 0; lia. }
    assert (H3 : m / 2 / 2 ^ Zpos p = c * 2 ^ Zpos p).
    { rewrite H2. apply Z.div_mul. lia. }
    rewrite shr_1_exact by (try lia; exists (c * (2 ^ Zpos p * 2 ^ Zpos p)); lia).
    rewrite IH by (try (apply Z.div_pos; lia);
                   exists (c * 2 ^ Zpos p); lia).
    rewrite IH by (try (rewrite H3; nia); rewrite H3; exists c; lia).
    f_equal. rewrite !Z.div_div by lia. reflexivity.
  - assert (Hpos : 0 < 2 ^ Zpos p) by (apply Z.pow_pos_nonneg; lia).
    assert (E : 2 ^ Zpos p~0 = 2 ^ Zpos p * 2 ^ Zpos p).
    { rewrite <- Z.pow_add_r by lia. f_equal. lia. }
    rewrite E in *.
    assert (H3 : m / 2 ^ Zpos p = c * 2 ^ Zpos p).
    { rewrite Hc, Z.mul_assoc. apply Z.div_mul. lia. }
    rewrite IH by (try lia; exists (c * 2 ^ Zpos p); lia).
    rewrite IH by (try (rewrite H3; nia); rewrite H3; exists c; lia).
    f_equal. rewrite !Z.div_div by lia. reflexivity.
  - apply shr_1_exact; [lia | exists c; exact Hc].
Qed.

Lemma round_nearest_even_range (q : Z) (l : location) :
  (round_nearest_even q l = q \/ round_nearest_even q l = q + 1)
  /\ (l = loc_Exact -> round_nearest_even q l = q).
Proof.
  destruct l as [|[| |]]; cbn [round_nearest_even].
  - split; [left; reflexivity | reflexivity].
  - destruct (Z.even q); split; auto; discriminate.
  - split; [left; reflexivity | discriminate].
  - split; [right; reflexivity | discriminate].
Qed.

Lemma binary_round_aux_finish sx mx ex lx :
  binary_round_aux 53 1024 sx mx ex lx
  = let '(mrs', e') := shr_fexp 53 1024 mx ex lx in
    round_finish sx (shr_fexp 53 1024
                 (round_nearest_even (shr_m mrs') (loc_of_shr_record mrs'))
                 e' loc_Exact).
Proof.
  unfold binary_round_aux, round_finish.
  destruct (shr_fexp 53 1024 mx ex lx) as [mrs' e'].
  destruct (shr_fexp 53 1024 _ e' loc_Exact) as [mrs'' e'']. reflexivity.
Qed.

Lemma fexp_normal (e : Z) : -1074 <= e - 53 -> fexp 53 1024 e = e - 53.
Proof. intros H. unfold fexp, emin. apply Z.max_l. lia. Qed.

Lemma round_second_shift (sx : bool) (m1 e1 : Z) :
  2 ^ 52 <= m1 <= 2 ^ 53 -> -1074 <= e1 -> e1 + 1 <= 971 ->
  exists m2 e2,
    round_finish sx (shr_fexp 53 1024 m1 e1 loc_Exact) = S754_finite sx m2 e2
    /\ (e2 = e1 \/ e2 = e1 + 1)
    /\ Zpos m2 * 2 ^ (e2 - e1) = m1.
Proof.
  intros Hm Hlo Hhi.
  destruct (Z.eq_dec m1 (2 ^ 53)) as [->|Hne].
  - exists (4503599627370496%positive), (e1 + 1).
    unfold shr_fexp. change (Zdigits2 (2 ^ 53)) with 54.
    rewrite fexp_normal by lia.
    replace (54 + e1 - 53 - e1) with 1 by lia.
    cbn [shr shr_record_of_loc SpecFloat.iter_pos].
    change (2 ^ 53) with 9007199254740992. cbn [shr_1 orb round_finish shr_m].
    replace (e1 + 1 <=? 1024 - 53) with true by (symmetry; apply Z.leb_le; lia).
    split; [reflexivity|]. split; [right; reflexivity|].
    replace (e1 + 1 - e1) with 1 by lia. reflexivity.
  - destruct m1 as [|pm|pm]; try (change (2 ^ 52) with 4503599627370496 in Hm; lia).
    assert (Hd : Zpos (digits2_pos pm) = 53).
    { apply digits2_pos_unique. change (53 - 1) with 52. lia. }
    exists pm, e1.
    unfold shr_fexp. cbn [Zdigits2]. rewrite Hd.
    rewrite fexp_normal by lia.
    replace (53 + e1 - 53 - e1) with 0 by lia.
    cbn [shr shr_record_of_loc round_finish shr_m].
    replace (e1 <=? 1024 - 53) with true by (symmetry; apply Z.leb_le; lia).
    split; [reflexivity|]. split; [left; reflexivity|].
    replace (e1 - e1) with 0 by lia. lia.
Qed.

Lemma round_first_shift (M : positive) (ex n : Z) :
  0 < n -> Zpos (digits2_pos M) = n + 53 -> -1074 <= ex + n ->
  exists rec,
    shr_fexp 53 1024 (Zpos M) ex loc_Exact = (rec, ex + n)
    /\ let q := Zpos M / 2 ^ n in
       let m1 := round_nearest_even (shr_m rec) (loc_of_shr_record rec) in
       2 ^ 52 <= q < 2 ^ 53
       /\ (m1 = q \/ (m1 = q + 1 /\ q * 2 ^ n < Zpos M)).
Proof.
  intros Hn Hd Hlo.
  unfold shr_fexp. cbn [Zdigits2]. rewrite Hd.
  rewrite fexp_normal by lia.
  replace (n + 53 + ex - 53 - ex) with n by lia.
  destruct n as [|p|p]; try lia.
  cbn [shr shr_record_of_loc].
  eexists. split; [reflexivity|].
  cbv zeta.
  pose proof (digits2_pos_bounds M) as Hb. rewrite Hd in Hb.
  replace (Z.pos p + 53 - 1) with (52 + Z.pos p) in Hb by lia.
  replace (Z.pos p + 53) with (53 + Z.pos p) in Hb by lia.
  rewrite !Z.pow_add_r in Hb by lia.
  assert (Hp : 0 < 2 ^ Z.pos p) by (apply Z.pow_pos_nonneg; lia).
  assert (Hq : 2 ^ 52 <= Z.pos M / 2 ^ Z.pos p < 2 ^ 53).
  { split.
    - apply Z.div_le_lower_bound; lia.
    - apply Z.div_lt_upper_bound; lia. }
  split; [exact Hq|].
  pose proof (Z.div_mod (Z.pos M) (2 ^ Z.pos p) ltac:(lia)) as Hdm.
  pose proof (Z.mod_pos_bound (Z.pos M) (2 ^ Z.pos p) Hp) as Hmb.
  destruct (Z.eq_dec (Z.pos M mod 2 ^ Z.pos p) 0) as [Hz|Hnz].
  - left. rewrite iter_shr_1_exact; [reflexivity|lia|].
    apply Z.mod_divide; [lia|exact Hz].
  - rewrite iter_shr_1_m by (simpl; lia). cbn [shr_m].
    destruct (round_nearest_even_range (Z.pos M / 2 ^ Z.pos p)
                (loc_of_shr_record
                   (SpecFloat.iter_pos shr_1 p
                      {| shr_m := Z.pos M; shr_r := false; shr_s := false |})))
      as [[H|H] _].
    + left. exact H.
    + right. split; [exact H|]. nia.
Qed.

(** Rounding an exact positive product of more than 53 bits: the result is
    finite, its value is the product cut to 53 bits, or that plus one unit
    in the last place when bits were lost. *)
Lemma round_aux_shape (M : positive) (ex n : Z) :
  0 < n -> Zpos (digits2_pos M) = n + 53 -> -1074 <= ex + n ->
  ex + n + 1 <= 971 ->
  exists m2 e2,
    binary_round_aux 53 1024 false (Zpos M) ex loc_Exact
    = S754_finite false m2 e2
    /\ (e2 = ex + n \/ e2 = ex + n + 1)
    /\ let q := Zpos M / 2 ^ n in
       (Zpos m2 * 2 ^ (e2 - (ex + n)) = q
        \/ (Zpos m2 * 2 ^ (e2 - (ex + n)) = q + 1 /\ q * 2 ^ n < Zpos M)).
Proof.
  intros Hn Hd Hlo Hhi.
  rewrite binary_round_aux_finish.
  destruct (round_first_shift M ex n Hn Hd Hlo) as (rec & -> & Hq & Hm1).
  cbv zeta in Hq, Hm1.
  destruct (round_second_shift false
              (round_nearest_even (shr_m rec) (loc_of_shr_record rec))
              (ex + n)) as (m2 & e2 & Hf & He & Hv); [lia|lia|lia|].
  exists m2, e2. split; [exact Hf|]. split; [exact He|].
  cbv zeta. rewrite Hv. exact Hm1.
Qed.

(** An accepted speed is a positive normal number between [2^-1] and
    [2^1]. *)
Lemma speed_accepted_shape (speed : spec_float) :
  valid_binary PyFloat.prec64 PyFloat.emax64 speed = true ->
  speed_accepted speed = true ->
  exists m e,
    speed = S754_finite false m e
    /\ Zpos (digits2_pos m) = 53
    /\ (e = -53 \/ e = -52 \/ (e = -51 /\ m = 4503599627370496%positive)).
Proof.
  intros Hv Ha. unfold speed_accepted in Ha.
  apply andb_prop in Ha as [Hge Hle].
  destruct speed as [s|s| |s m e]; try discriminate.
  - destruct s; discriminate.
  - destruct s; [discriminate|].
    unfold speed_ge, speed_le, SFleb, SFcompare in Hge, Hle.
    unfold valid_binary, bounded, canonical_mantissa in Hv.
    apply andb_prop in Hv as [Hc _]. apply Z.eqb_eq in Hc.
    unfold fexp, emin, PyFloat.prec64, PyFloat.emax64 in Hc.
    assert (He : -53 <= e <= -51).
    { split.
      - destruct (Z.compare_spec (-53) e); [lia|lia|discriminate].
      - destruct (Z.compare_spec e (-51)); [lia|lia|discriminate]. }
    exists m, e. split; [reflexivity|]. split; [lia|].
    assert (Hcases : e = -53 \/ e = -52 \/ e = -51) by lia.
    destruct Hcases as [->|[->| ->]]; [left; reflexivity|right; left; reflexivity|].
    right; right. split; [reflexivity|].
    assert (Hd : Zpos (digits2_pos m) = 53) by lia.
    pose proof (digits2_pos_bounds m) as Hb. rewrite Hd in Hb.
    change (2 ^ (53 - 1)) with 4503599627370496 in Hb.
    rewrite Z.compare_refl in Hle.
    assert (Hm : Z.pos m <= 4503599627370496).
    { apply Pos2Z.pos_le_pos. unfold Pos.le, Pos.compare. intros Hgt.
      rewrite Hgt in Hle. discriminate Hle. }
    apply Pos2Z.inj. clear - Hm Hb. lia.
Qed.

(** The integer part of a rounded product lies between any two integers
    that bound the exact product. *)
Lemma trunc_of_rounded (M m2 : positive) (ex n e2 lo hi : Z) :
  0 < n -> ex + n + 1 < 0 ->
  (e2 = ex + n \/ e2 = ex + n + 1) ->
  (let q := Zpos M / 2 ^ n in
   Zpos m2 * 2 ^ (e2 - (ex + n)) = q
   \/ (Zpos m2 * 2 ^ (e2 - (ex + n)) = q + 1 /\ q * 2 ^ n < Zpos M)) ->
  lo * 2 ^ (- ex) <= Zpos M <= hi * 2 ^ (- ex) ->
  lo <= PyFloat.trunc_mag m2 e2 <= hi.
Proof.
  intros Hn Hneg He Hq HM. cbv zeta in Hq.
  rewrite trunc_mag_floor. unfold floor_dyadic.
  replace (0 <=? e2) with false by (symmetry; apply Z.leb_gt; lia).
  set (k := e2 - (ex + n)) in *.
  assert (Hk : 0 <= k <= 1) by lia.
  assert (HA : 2 ^ (- (ex + n)) = 2 ^ (- e2) * 2 ^ k).
  { rewrite <- Z.pow_add_r by lia. f_equal. lia. }
  assert (HX : 2 ^ (- ex) = 2 ^ (- (ex + n)) * 2 ^ n).
  { rewrite <- Z.pow_add_r by lia. f_equal. lia. }
  assert (Hp2 : 0 < 2 ^ (- e2)) by (apply Z.pow_pos_nonneg; lia).
  assert (Hpk : 0 < 2 ^ k) by (apply Z.pow_pos_nonneg; lia).
  assert (Hpn : 0 < 2 ^ n) by (apply Z.pow_pos_nonneg; lia).
  assert (HpA : 0 < 2 ^ (- (ex + n))) by (apply Z.pow_pos_nonneg; lia).
  rewrite <- (Z.div_mul_cancel_r (Zpos m2) (2 ^ (- e2)) (2 ^ k)) by lia.
  rewrite <- HA.
  set (A := 2 ^ (- (ex + n))) in *.
  set (P := 2 ^ n) in *.
  set (m1 := Z.pos m2 * 2 ^ k) in *.
  rewrite HX in HM.
  assert (Hlo : lo * A <= Zpos M / P).
  { apply Z.div_le_lower_bound; [lia|]. nia. }
  assert (Hhi : Zpos M / P <= hi * A).
  { apply Z.div_le_upper_bound; [lia|]. nia. }
  assert (Hm1 : lo * A <= m1 <= hi * A).
  { destruct Hq as [->|[-> Hlt]]; [lia|]. split; [lia|].
    assert (Zpos M / P < hi * A) by nia. lia. }
  split.
  - apply Z.div_le_lower_bound; [lia|]. nia.
  - apply Z.div_le_upper_bound; [lia|]. nia.
Qed.

(** X22: for every binary64 speed the request model accepts ([0.5 <= speed
    <= 2.0]), the engine rate [int(base_rate * speed)] of line 168 is
    defined and lies between 100 and 400: rounding the product never
    carries it outside the bounds. *)
Theorem X22_rate_within_bounds (speed : spec_float) :
  valid_binary PyFloat.prec64 PyFloat.emax64 speed = true ->
  speed_accepted speed = true ->
  exists rate,
    PyNum.py_int (PyFloat.mul (PyFloat.of_int base_rate) speed) = Ok rate
    /\ 100 <= rate <= 400.
Proof.
  intros Hv Ha.
  destruct (speed_accepted_shape speed Hv Ha) as (m & e & -> & Hd & He).
  destruct (PyFloat.of_int base_rate) as [t|t| |t k ek] eqn:Hk;
    vm_compute in Hk; try discriminate.
  injection Hk as <- <- <-.
  unfold PyFloat.mul, SFmul, PyFloat.prec64, PyFloat.emax64. cbn [xorb].
  pose proof (digits2_pos_bounds m) as Hb. rewrite Hd in Hb.
  change (2 ^ (53 - 1)) with 4503599627370496 in Hb.
  change (2 ^ 53) with 9007199254740992 in Hb.
  set (M := (7036874417766400 * m)%positive).
  assert (HM : Zpos M = 7036874417766400 * Zpos m) by (unfold M; lia).
  assert (Hn : exists n, (n = 52 \/ n = 53) /\ Zpos (digits2_pos M) = n + 53).
  { destruct (Z_lt_le_dec (Zpos M) (2 ^ 105)) as [Hlt|Hge].
    - exists 52. split; [left; reflexivity|].
      apply digits2_pos_unique. split; [|exact Hlt].
      change (2 ^ (52 + 53 - 1)) with 20282409603651670423947251286016. lia.
    - exists 53. split; [right; reflexivity|].
      apply digits2_pos_unique. split; [exact Hge|].
      change (2 ^ (53 + 53)) with 81129638414606681695789005144064. lia. }
  destruct Hn as (n & Hn & HdM).
  destruct (round_aux_shape M (-45 + e) n) as (m2 & e2 & -> & He2 & Hq);
    [lia|exact HdM|lia|lia|].
  exists (PyFloat.trunc_mag m2 e2). split; [reflexivity|].
  apply (trunc_of_rounded M m2 (-45 + e) n e2 100 400);
    [lia|lia|exact He2|exact Hq|].
  rewrite HM.
  destruct He as [->|[->|[-> ->]]].
  - change (2 ^ (- (-45 + -53))) with 316912650057057350374175801344. lia.
  - change (2 ^ (- (-45 + -52))) with 158456325028528675187087900672. lia.
  - change (2 ^ (- (-45 + -51))) with 79228162514264337593543950336. lia.
Qed.

Lemma X22_rate_within_bounds_witness :
  valid_binary PyFloat.prec64 PyFloat.emax64 Cases.normal_speed = true
  /\ speed_accepted Cases.normal_speed = true
  /\ exists rate,
       PyNum.py_int (PyFloat.mul (PyFloat.of_int base_rate) Cases.normal_speed)
       = Ok rate
       /\ 100 <= rate <= 400.
Proof.
  split; [reflexivity|]. split; [reflexivity|].
  apply (X22_rate_within_bounds Cases.normal_speed); reflexivity.
Defined.
